(** * CellUniverse: the entry point [main.py]

    A shallow embedding of [parse_args], [load_config], [load_colony],
    [get_inputfiles] and [main], and the properties of the command-line
    checks, the frame discovery and the lineage output that follow from
    the code.

    Python integers are [Z], Python floats are binary64 primitive floats,
    [str] values and [pathlib.Path] values are [string]s.  The modules
    [cell], [colony], [optimization], [global_optimization], [jsonc],
    [dask] and the operating system are not part of [main.py]: what
    [main.py] calls in them is gathered in the record [World]. *)

From Stdlib Require Import ZArith List String Ascii Bool Lia.
From Stdlib Require Import PrimFloat DecimalString.
Import ListNotations.

Set Warnings "-register-all".

Open Scope string_scope.
Open Scope list_scope.
Open Scope Z_scope.

(** ** Values and exceptions *)

Definition Path := string.

(** The exceptions [main.py] raises itself, and those its collaborators
    may raise into it. *)
Inductive exn : Type :=
| ValueError (msg : string)
| Exception (msg : string)
| KeyError (key : string)
| IndexError
| AttributeError
| TypeError
| KeyboardInterrupt
| OtherError (what : string).

(** What running a piece of code gives: a value, an exception, or no
    answer within the fuel (the [count] loop of [get_inputfiles] has no
    bound of its own). *)
Inductive outcome (A : Type) : Type :=
| Returned (a : A)
| Raised (e : exn)
| OutOfFuel.

Arguments Returned {A} a.
Arguments Raised {A} e.
Arguments OutOfFuel {A}.

(** ** Command line: the table of [add_argument] calls *)

(** The options as they stand on the command line; [None] is an option
    that was not given.  The four required arguments are always there
    ([argparse] exits otherwise). *)
Record Argv : Type := {
  opt_debug : option Path;
  opt_frame_first : option Z;
  opt_frame_last : option Z;
  opt_dist : bool;
  opt_workers : option Z;
  opt_jobs : option Z;
  opt_keep : option Z;
  opt_strategy : option string;
  opt_cluster : option string;
  opt_no_parallel : bool;
  opt_global_optimization : bool;
  opt_graysynthetic : option bool;
  opt_phaseContractImage : option bool;
  opt_auto_temp : option Z;
  opt_start_temp : option float;
  opt_end_temp : option float;
  req_input : string;
  req_output : Path;
  req_config : Path;
  req_initial : Path
}.

(** The namespace [parser.parse_args()] returns, and [main] receives. *)
Record Args : Type := {
  debug : option Path;
  frame_first : Z;
  frame_last : Z;
  dist : bool;
  workers : Z;
  jobs : Z;
  keep : Z;
  strategy : string;
  cluster : string;
  no_parallel : bool;
  global_optimization : bool;
  graysynthetic : bool;
  phaseContractImage : bool;
  auto_temp : Z;
  start_temp : option float;
  end_temp : option float;
  input : string;
  output : Path;
  config : Path;
  initial : Path
}.

Definition default {A : Type} (d : A) (o : option A) : A :=
  match o with Some v => v | None => d end.

(** [parser.parse_args()]: every option takes its [default=]. *)
Definition argparse (v : Argv) : Args := {|
  debug := opt_debug v;
  frame_first := default 0 (opt_frame_first v);
  frame_last := default (-1) (opt_frame_last v);
  dist := opt_dist v;
  workers := default (-1) (opt_workers v);
  jobs := default (-1) (opt_jobs v);
  keep := default 1 (opt_keep v);
  strategy := default "best-wins" (opt_strategy v);
  cluster := default "" (opt_cluster v);
  no_parallel := opt_no_parallel v;
  global_optimization := opt_global_optimization v;
  graysynthetic := default false (opt_graysynthetic v);
  phaseContractImage := default false (opt_phaseContractImage v);
  auto_temp := default 1 (opt_auto_temp v);
  start_temp := opt_start_temp v;
  end_temp := opt_end_temp v;
  input := req_input v;
  output := req_output v;
  config := req_config v;
  initial := req_initial v
|}.

(** [parsed.workers = n] *)
Definition set_workers (a : Args) (n : Z) : Args := {|
  debug := debug a; frame_first := frame_first a; frame_last := frame_last a;
  dist := dist a; workers := n; jobs := jobs a; keep := keep a;
  strategy := strategy a; cluster := cluster a; no_parallel := no_parallel a;
  global_optimization := global_optimization a;
  graysynthetic := graysynthetic a; phaseContractImage := phaseContractImage a;
  auto_temp := auto_temp a; start_temp := start_temp a; end_temp := end_temp a;
  input := input a; output := output a; config := config a; initial := initial a
|}.

(** [parsed.jobs = n] *)
Definition set_jobs (a : Args) (n : Z) : Args := {|
  debug := debug a; frame_first := frame_first a; frame_last := frame_last a;
  dist := dist a; workers := workers a; jobs := n; keep := keep a;
  strategy := strategy a; cluster := cluster a; no_parallel := no_parallel a;
  global_optimization := global_optimization a;
  graysynthetic := graysynthetic a; phaseContractImage := phaseContractImage a;
  auto_temp := auto_temp a; start_temp := start_temp a; end_temp := end_temp a;
  input := input a; output := output a; config := config a; initial := initial a
|}.

(** [setattr(args, 'start_temp', t); setattr(args, 'end_temp', e)] *)
Definition set_temps (a : Args) (t e : float) : Args := {|
  debug := debug a; frame_first := frame_first a; frame_last := frame_last a;
  dist := dist a; workers := workers a; jobs := jobs a; keep := keep a;
  strategy := strategy a; cluster := cluster a; no_parallel := no_parallel a;
  global_optimization := global_optimization a;
  graysynthetic := graysynthetic a; phaseContractImage := phaseContractImage a;
  auto_temp := auto_temp a; start_temp := Some t; end_temp := Some e;
  input := input a; output := output a; config := config a; initial := initial a
|}.

(** Truth value of a [str]: the empty string is false. *)
Definition truthy (s : string) : bool :=
  match s with EmptyString => false | String _ _ => true end.

Definition jobs_required_msg : string :=
  "-j/--jobs is required for non-local clusters".

(** [parse_args], after the parser has run.  [cpu_count] is what
    [multiprocessing.cpu_count()] answers, a positive number. *)
Definition parse_args (cpu_count : positive) (v : Argv) : outcome Args :=
  let parsed := argparse v in
  let parsed :=
    if workers parsed =? -1 then set_workers parsed (Z.pos cpu_count)
    else parsed in
  if jobs parsed =? -1 then
    if truthy (cluster parsed) then Raised (ValueError jobs_required_msg)
    else Returned (set_jobs parsed (workers parsed))
  else Returned parsed.

(** ** Cells, configuration, lineage file *)

(** Modelled from the spec: the class [Bacilli] of [cell.py], a cell with
    its identity [name] and the geometry [x], [y], [width], [length],
    [rotation]; [main.py] builds it from these six values and reads them
    back as attributes. *)
Module Bacilli.

Record t : Type := make {
  name : string;
  x : float;
  y : float;
  width : float;
  length : float;
  rotation : float
}.

End Bacilli.

(** Modelled from the spec: [CellNode] of [colony.py] wraps a cell. *)
Record CellNode : Type := { cell : Bacilli.t }.

(** What [jsonc.load] can give. *)
Inductive json : Type :=
| JNull
| JBool (b : bool)
| JInt (n : Z)
| JFloat (f : float)
| JString (s : string)
| JArray (l : list json)
| JObject (items : list (string * json)).

(** A [dict] with [str] keys, as its items. *)
Definition Config := list (string * json).

Fixpoint lookup (key : string) (d : Config) : option json :=
  match d with
  | [] => None
  | (k, v) :: rest => if String.eqb k key then Some v else lookup key rest
  end.

(** [key in d] *)
Definition contains (key : string) (d : Config) : bool :=
  match lookup key d with Some _ => true | None => false end.

Definition lower_ascii (c : ascii) : ascii :=
  let n := nat_of_ascii c in
  if (Nat.leb 65 n && Nat.leb n 90)%bool then ascii_of_nat (n + 32) else c.

(** [s.lower()] on ASCII text. *)
Fixpoint lower (s : string) : string :=
  match s with
  | EmptyString => EmptyString
  | String c rest => String (lower_ascii c) (lower rest)
  end.

(** One row of [csv.DictReader], a [dict]: each column of the header to
    the text the row has for it, or to [None] where the row is shorter than
    the header.  (What a row longer than the header holds beyond it is kept
    under the key [None], which [load_colony] does not ask for.) *)
Definition Row := list (string * option string).

(** [row[key]], where the row has the key. *)
Fixpoint field (key : string) (r : Row) : option (option string) :=
  match r with
  | [] => None
  | (k, v) :: rest => if String.eqb k key then Some v else field key rest
  end.

(** The file object behind [lineagefile]: the lines printed to it so far
    and whether [close()] was called. *)
Record File : Type := {
  lines : list string;
  closed : bool
}.

(** The [cluster] handed to [dask.distributed.Client]. *)
Inductive Cluster : Type :=
| LocalCluster (n_workers : Z) (local_dir : string)
| Address (addr : string).

(** The local variable [client]: [None] when parallelism is disabled. *)
Definition Client := option Cluster.

(** ** Paths and text *)

(** The character that opens and closes a quotation in a message. *)
Definition dquote : string := String (ascii_of_nat 34) EmptyString.

Definition quoted (s : string) : string := (dquote ++ s ++ dquote)%string.

Fixpoint has_sep (p : string) : bool :=
  match p with
  | EmptyString => false
  | String c rest => if Ascii.eqb c "/" then true else has_sep rest
  end.

(** [p.name]: the last component of a POSIX path. *)
Fixpoint path_name (p : Path) : string :=
  match p with
  | EmptyString => EmptyString
  | String c rest =>
      if Ascii.eqb c "/" then path_name rest
      else if has_sep rest then path_name rest
      else p
  end.

(** [d / f] *)
Definition path_join (d : Path) (f : string) : Path :=
  (d ++ "/" ++ f)%string.

(** [sep.join(l)] *)
Definition join (sep : string) (l : list string) : string :=
  String.concat sep l.

(** ** The world around [main.py] *)

(** What [main] does to the world, in the order it does it.  A call is
    recorded when it is made, whatever comes back. *)
Inductive event : Type :=
| NewLocalCluster (n_workers : Z)
| NewClient (c : Cluster)
| ReadConfig (p : Path)
| CheckConfig
| ReadColony (p : Path)
| OpenFile (p : Path)
| CloseFile
| CallGlobalOptimize (files : list Path)
| CallAutoTemp (file : Path)
| CallOptimize (file : Path) (a : Args).

(** Everything [main.py] uses and does not define.  [percent pattern i]
    is [Path(pattern % i)] and [is_file p] is [p.exists() and
    p.is_file()]; [float_of_string] is [float] on text, [None] where it
    raises [ValueError]; [str] and [repr] are the built-in functions on a
    float and on text; [unnamed_cell x y width length rotation] is
    [Bacilli(None, x, y, width, length, rotation)], which the spec does not
    speak of.  [Store] is the state of a [LineageFrames] object with the
    colonies it holds; [Colony] names one colony in it, so that a colony
    changed through one reference is changed for all: [forward], [add]
    and [flatten] are the methods of that name, [nodes] is the iteration
    over a colony, and [LineageFrames] a new object.  [global_optimize]
    answers with the lines it printed to the lineage file it was handed. *)
Record World : Type := {
  (* the interpreter and the operating system *)
  cpu_count : positive;
  percent : string -> Z -> Path;
  is_file : Path -> bool;
  float_of_string : string -> option float;
  str : float -> string;
  repr : string -> string;
  read_json : Path -> outcome json;
  read_csv : Path -> outcome (list Row);
  open_w : Path -> outcome unit;
  (* dask *)
  local_cluster : Z -> outcome unit;
  connect : Cluster -> outcome unit;
  (* cell.py *)
  checkconfig : Config -> outcome unit;
  unnamed_cell : float -> float -> float -> float -> float ->
                 outcome Bacilli.t;
  (* colony.py *)
  Store : Type;
  Colony : Type;
  LineageFrames : Store;
  forward : Store -> Colony * Store;
  add : Colony -> CellNode -> Store -> Store;
  flatten : Colony -> Store -> Store;
  nodes : Colony -> Store -> list CellNode;
  (* optimization.py and global_optimization.py *)
  optimize : Path -> Store -> Args -> Config -> Client ->
             outcome (Colony * Store);
  auto_temp_schedule : Path -> Colony -> Store -> Args -> Config ->
                       outcome (float * float * Store);
  global_optimize : list Path -> Store -> Args -> Config ->
                    list string * outcome unit
}.

(** ** [get_inputfiles] *)

Definition interval_msg : string :=
  "Invalid interval: frame_first must be less than frame_last".

Definition negative_first_msg : string :=
  "Invalid interval: frame_first must be greater or equal to 0".

Definition not_found_msg (file : Path) : string :=
  ("Input file not found " ++ quoted file)%string.

(** The guard of the first [if]. *)
Definition interval_guard (a : Args) : bool :=
  (frame_first a <? frame_first a) && (frame_last a >=? 0).

(** [for i in count(i): ...] with [inputfiles] as collected so far;
    [break] leads to [return inputfiles]. *)
Fixpoint count_loop (w : World) (fuel : nat) (a : Args) (i : Z)
    (inputfiles : list Path) : outcome (list Path) :=
  match fuel with
  | O => OutOfFuel
  | S fuel' =>
      let file := percent w (input a) i in
      if is_file w file then
        let inputfiles := inputfiles ++ [file] in
        if i =? frame_last a then Returned inputfiles
        else count_loop w fuel' a (i + 1) inputfiles
      else if (frame_last a <? 0) && negb (frame_first a =? i) then
        Returned inputfiles
      else Raised (ValueError (not_found_msg file))
  end.

Definition get_inputfiles (w : World) (fuel : nat) (a : Args)
    : outcome (list Path) :=
  if interval_guard a then Raised (ValueError interval_msg)
  else if frame_first a <? 0 then Raised (ValueError negative_first_msg)
  else count_loop w fuel a (frame_first a) [].

(** ** State and exceptions of [main] *)

(** What [main] changes as it runs: the variable [lineagefile] ([None]
    until the file is opened) with the file behind it, and the calls made
    so far. *)
Record State : Type := {
  lineagefile : option File;
  log : list event
}.

Definition initial_state : State := {| lineagefile := None; log := [] |}.

Definition M (A : Type) : Type := State -> outcome A * State.

Definition ret {A : Type} (a : A) : M A := fun s => (Returned a, s).

Definition raise {A : Type} (e : exn) : M A := fun s => (Raised e, s).

Definition bind {A B : Type} (c : M A) (k : A -> M B) : M B :=
  fun s =>
    match c s with
    | (Returned a, s') => k a s'
    | (Raised e, s') => (Raised e, s')
    | (OutOfFuel, s') => (OutOfFuel, s')
    end.

Declare Scope py_scope.
Delimit Scope py_scope with py.

Notation "x <- c ;; k" := (bind c (fun x => k))
  (at level 61, c at next level, right associativity) : py_scope.
Notation "' p <- c ;; k" := (bind c (fun p => k))
  (at level 61, p pattern, c at next level, right associativity) : py_scope.
Notation "c ;; k" := (bind c (fun _ => k))
  (at level 61, right associativity) : py_scope.

Open Scope py_scope.

(** The outcome of code that does not touch the state. *)
Definition lift {A : Type} (o : outcome A) : M A := fun s => (o, s).

Definition emit (e : event) : M unit :=
  fun s => (Returned tt, {| lineagefile := lineagefile s; log := log s ++ [e] |}).

(** A call into the world: recorded, then answered. *)
Definition call {A : Type} (e : event) (o : outcome A) : M A :=
  emit e ;; lift o.

(** [print(line, file=lineagefile)]; with [None] for a file [print]
    writes to the standard output, which is not modelled (nor are the
    progress messages [main] prints there, nor its clock). *)
Definition print_line (line : string) : M unit :=
  fun s =>
    match lineagefile s with
    | Some f =>
        (Returned tt,
         {| lineagefile := Some {| lines := lines f ++ [line]; closed := closed f |};
            log := log s |})
    | None => (Returned tt, s)
    end.

Fixpoint print_lines (l : list string) : M unit :=
  match l with
  | [] => ret tt
  | line :: rest => print_line line ;; print_lines rest
  end.

(** [lineagefile = open(p, 'w')] *)
Definition open_lineage (w : World) (p : Path) : M unit :=
  call (OpenFile p) (open_w w p) ;;
  fun s =>
    (Returned tt,
     {| lineagefile := Some {| lines := []; closed := false |}; log := log s |}).

(** [if lineagefile: lineagefile.close()]; a file object is true. *)
Definition close_lineage : M unit :=
  fun s =>
    match lineagefile s with
    | Some f =>
        (Returned tt,
         {| lineagefile := Some {| lines := lines f; closed := true |};
            log := log s ++ [CloseFile] |})
    | None => (Returned tt, s)
    end.

(** [except KeyboardInterrupt as error: raise error] *)
Definition reraise_interrupt {A : Type} (body : M A) : M A :=
  fun s =>
    match body s with
    | (Raised KeyboardInterrupt, s') => (Raised KeyboardInterrupt, s')
    | r => r
    end.

(** [try: body finally: handler]: the handler runs however the body is
    left; it does not run when the body never ends. *)
Definition try_finally {A : Type} (body : M A) (handler : M unit) : M A :=
  fun s =>
    match body s with
    | (OutOfFuel, s') => (OutOfFuel, s')
    | (r, s') =>
        match handler s' with
        | (Returned _, s'') => (r, s'')
        | (Raised e, s'') => (Raised e, s'')
        | (OutOfFuel, s'') => (OutOfFuel, s'')
        end
    end.

(** ** [load_config] and [load_colony] *)

Definition not_dict_msg : string := "Invalid config: must be a dictionary".

Definition missing_msg (key : string) : string :=
  ("Invalid config: missing " ++ quoted key)%string.

Definition unsupported_msg : string := "Invalid config: unsupported cell type".

(** [config['global.cellType'].lower()] *)
Definition celltype_of (config : Config) : outcome string :=
  match lookup "global.cellType" config with
  | Some (JString s) => Returned (lower s)
  | Some _ => Raised AttributeError
  | None => Raised (KeyError "global.cellType")
  end.

Definition load_config (w : World) (config_file : Path) : M Config :=
  loaded <- call (ReadConfig config_file) (read_json w config_file) ;;
  match loaded with
  | JObject config =>
      if negb (contains "global.cellType" config) then
        raise (ValueError (missing_msg "global.cellType"))
      else if negb (contains "global.pixelsPerMicron" config) then
        raise (ValueError (missing_msg "global.pixelsPerMicron"))
      else if negb (contains "global.framesPerSecond" config) then
        raise (ValueError (missing_msg "global.framesPerSecond"))
      else
        celltype <- lift (celltype_of config) ;;
        if String.eqb celltype "bacilli" then
          call CheckConfig (checkconfig w config) ;;
          ret config
        else raise (ValueError unsupported_msg)
  | _ => raise (ValueError not_dict_msg)
  end.

(** The message of the [ValueError] of [float(text)]. *)
Definition float_msg (w : World) (text : string) : string :=
  ("could not convert string to float: " ++ repr w text)%string.

(** [float(row[key])]: [KeyError] where the row has no such key,
    [TypeError] where it has [None] for it. *)
Definition float_field (w : World) (key : string) (row : Row) : M float :=
  match field key row with
  | None => raise (KeyError key)
  | Some None => raise TypeError
  | Some (Some text) =>
      match float_of_string w text with
      | Some f => ret f
      | None => raise (ValueError (float_msg w text))
      end
  end.

(** [Bacilli(name, x, y, width, length, rotation)] *)
Definition new_cell (w : World) (name : option string)
    (x y width length rotation : float) : M Bacilli.t :=
  match name with
  | Some text => ret (Bacilli.make text x y width length rotation)
  | None => lift (unnamed_cell w x y width length rotation)
  end.

(** The body of [for row in reader]. *)
Fixpoint load_rows (w : World) (colony : Colony w) (config : Config)
    (rows : list Row) (store : Store w) : M (Store w) :=
  match rows with
  | [] => ret store
  | row :: rest =>
      match field "name" row with
      | None => raise (KeyError "name")
      | Some name =>
          celltype <- lift (celltype_of config) ;;
          if String.eqb celltype "bacilli" then
            x <- float_field w "x" row ;;
            y <- float_field w "y" row ;;
            width <- float_field w "width" row ;;
            length <- float_field w "length" row ;;
            rotation <- float_field w "rotation" row ;;
            cell <- new_cell w name x y width length rotation ;;
            load_rows w colony config rest (add w colony {| cell := cell |} store)
          else raise (OtherError "UnboundLocalError: cell")
      end
  end.

Definition load_colony (w : World) (colony : Colony w) (initial_file : Path)
    (config : Config) (store : Store w) : M (Store w) :=
  rows <- call (ReadColony initial_file) (read_csv w initial_file) ;;
  load_rows w colony config rows store.

(** ** [main] *)

Definition temp_conflict_msg : string :=
  "when auto_temp is set to 1(default value), starting temperature or ending temperature should not be set manually".

Definition is_not_None {A : Type} (o : option A) : bool :=
  match o with Some _ => true | None => false end.

Definition worker_space : string := "/tmp/CellUniverse/dask-worker-space".

(** [if not args.no_parallel: ... client = Client(cluster)
    else: client = None] *)
Definition start_client (w : World) (a : Args) : M Client :=
  if negb (no_parallel a) then
    c <- (if negb (truthy (cluster a)) then
            call (NewLocalCluster (workers a)) (local_cluster w (workers a)) ;;
            ret (LocalCluster (workers a) worker_space)
          else ret (Address (cluster a))) ;;
    call (NewClient c) (connect w c) ;;
    ret (Some c)
  else ret None.

(** The header of the lineage file. *)
Definition header (celltype : string) : list string :=
  ["file"; "name"] ++
  (if String.eqb celltype "bacilli"
   then ["x"; "y"; "width"; "length"; "rotation"] else []).

(** From [config = load_config(args.config)] to the header line. *)
Definition prepare (w : World) (a : Args) : M (Config * string * Store w) :=
  config <- load_config w (config a) ;;
  celltype <- lift (celltype_of config) ;;
  let lineageframes := LineageFrames w in
  let '(colony, lineageframes) := forward w lineageframes in
  lineageframes <- load_colony w colony (initial a) config lineageframes ;;
  open_lineage w (path_join (output a) "lineage.csv") ;;
  print_line (join "," (header celltype)) ;;
  ret (config, celltype, lineageframes).

(** [global_optimization.optimize(files, lineageframes, lineagefile, args,
    config)]: the callee holds the open file and may print to it. *)
Definition run_global (w : World) (files : list Path) (store : Store w)
    (a : Args) (config : Config) : M unit :=
  emit (CallGlobalOptimize files) ;;
  let '(written, result) := global_optimize w files store a config in
  print_lines written ;;
  lift result.

(** [l[0]] *)
Definition first_item {A : Type} (l : list A) : outcome A :=
  match l with
  | [] => Raised IndexError
  | item :: _ => Returned item
  end.

(** [if args.auto_temp == 1: ...]: gives [args] as the later code sees
    them. *)
Definition calibrate (w : World) (fuel : nat) (a : Args) (config : Config)
    (lineageframes : Store w) : M (Args * Store w) :=
  if auto_temp a =? 1 then
    files <- lift (get_inputfiles w fuel a) ;;
    file <- lift (first_item files) ;;
    let '(colony, lineageframes) := forward w lineageframes in
    '(temperature, end_temperature, lineageframes) <-
      call (CallAutoTemp file)
           (auto_temp_schedule w file colony lineageframes a config) ;;
    ret (set_temps a temperature end_temperature, lineageframes)
  else ret (a, lineageframes).

(** The list [properties] of one cell. *)
Definition properties (w : World) (celltype : string) (imagefile : Path)
    (cellnode : CellNode) : list string :=
  [path_name imagefile; Bacilli.name (cell cellnode)] ++
  (if String.eqb celltype "bacilli"
   then [str w (Bacilli.x (cell cellnode));
         str w (Bacilli.y (cell cellnode));
         str w (Bacilli.width (cell cellnode));
         str w (Bacilli.length (cell cellnode));
         str w (Bacilli.rotation (cell cellnode))]
   else []).

(** [for cellnode in colony: ... print(','.join(properties), ...)] *)
Fixpoint write_cells (w : World) (celltype : string) (imagefile : Path)
    (cellnodes : list CellNode) : M unit :=
  match cellnodes with
  | [] => ret tt
  | cellnode :: rest =>
      print_line (join "," (properties w celltype imagefile cellnode)) ;;
      write_cells w celltype imagefile rest
  end.

(** [for imagefile in inputfiles: ...] *)
Fixpoint frame_loop (w : World) (a : Args) (config : Config) (client : Client)
    (celltype : string) (inputfiles : list Path) (lineageframes : Store w)
    : M unit :=
  match inputfiles with
  | [] => ret tt
  | imagefile :: rest =>
      '(colony, lineageframes) <-
        call (CallOptimize imagefile a)
             (optimize w imagefile lineageframes a config client) ;;
      let lineageframes := flatten w colony lineageframes in
      write_cells w celltype imagefile (nodes w colony lineageframes) ;;
      frame_loop w a config client celltype rest lineageframes
  end.

(** The body of [try].  The assignment [debugmode = True] under
    [if args.debug] sets a variable nothing reads. *)
Definition main_body (w : World) (fuel : nat) (a : Args) (client : Client)
    : M Z :=
  '(config, celltype, lineageframes) <- prepare w a ;;
  if global_optimization a then
    files <- lift (get_inputfiles w fuel a) ;;
    run_global w files lineageframes a config ;;
    ret 0
  else
    '(a, lineageframes) <- calibrate w fuel a config lineageframes ;;
    files <- lift (get_inputfiles w fuel a) ;;
    frame_loop w a config client celltype files lineageframes ;;
    ret 0.

Definition main (w : World) (fuel : nat) (a : Args) : M Z :=
  if (is_not_None (start_temp a) || is_not_None (end_temp a))
     && (auto_temp a =? 1)
  then raise (Exception temp_conflict_msg)
  else
    client <- start_client w a ;;
    try_finally (reraise_interrupt (main_body w fuel a client)) close_lineage.

(** [args = parse_args(); ... exit(main(args))] *)
Definition program (w : World) (fuel : nat) (v : Argv) : outcome Z * State :=
  match parse_args (cpu_count w) v with
  | Returned a => main w fuel a initial_state
  | Raised e => (Raised e, initial_state)
  | OutOfFuel => (OutOfFuel, initial_state)
  end.

(** ** [main] under an interrupt between two rows

    The interpreter raises [KeyboardInterrupt] in the main thread between
    two instructions, wherever the signal of the user finds it.  In the
    code above it comes out of a call that is running (the optimizer, the
    calibration); here it arrives in the loop that prints the rows.  A
    signal [(frame, rows)] arrives while the rows of the input file number
    [frame] (from 0) are printed, when [rows] of them have been printed: the
    exception is raised in place of what the loop would do next. *)








(** ** Vocabulary of the statements *)

(** [Path(args.input % i)]: the file of the frame [i]. *)
Definition frame_file (w : World) (a : Args) (i : Z) : Path :=
  percent w (input a) i.

(** The indices [i], [i + 1], ..., [i + n - 1]. *)
Definition run_from (i : Z) (n : nat) : list Z :=
  map (fun k => i + Z.of_nat k) (seq 0 n).

(** The frame indices [first], [first + 1], ..., [last]. *)
Definition frames_between (first last : Z) : list Z :=
  run_from first (Z.to_nat (last - first + 1)).

(** The files of the frames [first..last] under the pattern of [a]. *)
Definition frame_files (w : World) (a : Args) (first last : Z) : list Path :=
  map (frame_file w a) (frames_between first last).

(** The header row of the lineage file, as text. *)
Definition lineage_header : string := "file,name,x,y,width,length,rotation".

(** The row of one cell of the frame [imagefile], column by column. *)
Definition lineage_row (w : World) (imagefile : Path) (cellnode : CellNode)
    : string :=
  (path_name imagefile ++ "," ++
   Bacilli.name (cell cellnode) ++ "," ++
   str w (Bacilli.x (cell cellnode)) ++ "," ++
   str w (Bacilli.y (cell cellnode)) ++ "," ++
   str w (Bacilli.width (cell cellnode)) ++ "," ++
   str w (Bacilli.length (cell cellnode)) ++ "," ++
   str w (Bacilli.rotation (cell cellnode)))%string.

(** A frame whose optimization has completed: its file and the cells of
    the colony it committed. *)
Definition Frame : Type := (Path * list CellNode)%type.

Definition frame_rows (w : World) (fr : Frame) : list string :=
  map (lineage_row w (fst fr)) (snd fr).

(** What the optimizer does on the frames [inputfiles], one after the
    other from the store [lineageframes]: the frames it completes, and how
    the sequence ends (with the first optimization that does not return,
    if there is one). *)
Fixpoint optimizer_chain (w : World) (a : Args) (config : Config)
    (client : Client) (inputfiles : list Path) (lineageframes : Store w)
    : list Frame * outcome unit :=
  match inputfiles with
  | [] => ([], Returned tt)
  | imagefile :: rest =>
      match optimize w imagefile lineageframes a config client with
      | Returned (colony, lineageframes) =>
          let lineageframes := flatten w colony lineageframes in
          let '(done, result) :=
            optimizer_chain w a config client rest lineageframes in
          ((imagefile, nodes w colony lineageframes) :: done, result)
      | Raised e => ([], Raised e)
      | OutOfFuel => ([], OutOfFuel)
      end
  end.

(** A state whose lineage file is open or closed, by its parts. *)
Definition with_file (f : File) (events : list event) : State :=
  {| lineagefile := Some f; log := events |}.

(** The file [f] with the lines [more] printed to it. *)
Definition add_lines (f : File) (more : list string) : File :=
  {| lines := lines f ++ more; closed := closed f |}.

(** The optimizer calls a chain makes on [inputfiles]: one per completed
    frame, and one more when an optimization did not return. *)
Definition attempts (done : list Frame) (result : outcome unit) : nat :=
  List.length done + match result with Returned _ => 0 | _ => 1 end.

Definition optimizer_calls (a : Args) (inputfiles : list Path)
    (done : list Frame) (result : outcome unit) : list event :=
  map (fun file => CallOptimize file a) (firstn (attempts done result) inputfiles).

(** How [main] ends when the chain of optimizations ends with [result]. *)
Definition exit_of (result : outcome unit) : outcome Z :=
  match result with
  | Returned _ => Returned 0
  | Raised e => Raised e
  | OutOfFuel => OutOfFuel
  end.

(** Whether a run that ends with [result] ends at all. *)
Definition exits {A : Type} (result : outcome A) : bool :=
  match result with
  | OutOfFuel => false
  | _ => true
  end.

(** The log of the code [c] keeps the property [P] of its events. *)
Definition keeps (P : event -> Prop) {A : Type} (c : M A) : Prop :=
  forall s, Forall P (log s) -> Forall P (log (snd (c s))).

(** An optimizer call with the arguments [a], or no optimizer call and
    no calibration at all. *)
Definition called_with (a : Args) (e : event) : Prop :=
  match e with
  | CallOptimize _ a' => a' = a
  | CallAutoTemp _ => False
  | _ => True
  end.

(** The lineage file with the header and the given rows. *)
Definition lineage_file (rows : list string) (is_closed : bool) : File :=
  {| lines := lineage_header :: rows; closed := is_closed |}.

(** The check at the head of [main]. *)
Definition temp_conflict (a : Args) : bool :=
  (is_not_None (start_temp a) || is_not_None (end_temp a)) && (auto_temp a =? 1).

(** The events of the greedy mode: calibration and per-frame optimization. *)
Definition greedy_event (e : event) : bool :=
  match e with
  | CallAutoTemp _ | CallOptimize _ _ => true
  | _ => false
  end.

(** An optimizer call that was handed [keep > jobs]. *)
Definition keep_above_jobs (e : event) : bool :=
  match e with
  | CallOptimize _ a => jobs a <? keep a
  | _ => false
  end.

(** An optimizer call that was handed manual temperatures with
    [start_temp <= end_temp]. *)
Definition unordered_temps (e : event) : bool :=
  match e with
  | CallOptimize _ a =>
      match start_temp a, end_temp a with
      | Some t, Some e => PrimFloat.leb t e
      | _, _ => false
      end
  | _ => false
  end.

(** ** A small world to run the program in *)

Module Demo.

Fixpoint zeros (n : nat) : string :=
  match n with
  | O => EmptyString
  | S n' => String "0" (zeros n')
  end.

(** ["%03d" % i] *)
Definition pad3 (i : Z) : string :=
  let digits := NilZero.string_of_uint (N.to_uint (Z.abs_N i)) in
  if i <? 0 then ("-" ++ zeros (2 - String.length digits) ++ digits)%string
  else (zeros (3 - String.length digits) ++ digits)%string.

(** [pattern % i] for a pattern whose only directive is [%03d]. *)
Fixpoint percent03d (pattern : string) (i : Z) : string :=
  match pattern with
  | EmptyString => EmptyString
  | String c rest =>
      if String.prefix "%03d" pattern
      then (pad3 i ++ String.substring 3 (String.length rest - 3) rest)%string
      else String c (percent03d rest i)
  end.

Definition floats : list (string * float) :=
  [("0.0", 0.0%float); ("1.0", 1.0%float); ("4.0", 4.0%float);
   ("5.0", 5.0%float); ("10.0", 10.0%float); ("20.0", 20.0%float)].

Fixpoint parse (table : list (string * float)) (text : string) : option float :=
  match table with
  | [] => None
  | (t, f) :: rest => if String.eqb t text then Some f else parse rest text
  end.

Fixpoint show (table : list (string * float)) (f : float) : string :=
  match table with
  | [] => "nan"
  | (t, g) :: rest => if PrimFloat.eqb f g then t else show rest f
  end.

Definition config_json : json :=
  JObject [("global.cellType", JString "Bacilli");
           ("global.pixelsPerMicron", JFloat 10.0%float);
           ("global.framesPerSecond", JInt 2)].

Definition colony_rows : list Row :=
  [[("name", Some "a"); ("x", Some "10.0"); ("y", Some "20.0");
    ("width", Some "4.0"); ("length", Some "10.0"); ("rotation", Some "0.0")];
   [("name", Some "b"); ("x", Some "20.0"); ("y", Some "10.0");
    ("width", Some "4.0"); ("length", Some "5.0"); ("rotation", Some "1.0")]].

(** [repr] of a text without quotes or escapes in it. *)
Definition in_quotes (text : string) : string := ("'" ++ text ++ "'")%string.

(** The store: the colonies of the frames, oldest first; a colony is named
    by its position. *)
Definition new_frame (store : list (list CellNode)) : nat * list (list CellNode) :=
  (List.length store, store ++ [last store []]).

Fixpoint add_node (colony : nat) (node : CellNode) (store : list (list CellNode))
    : list (list CellNode) :=
  match store, colony with
  | [], _ => []
  | c :: rest, O => (c ++ [node]) :: rest
  | c :: rest, S k => c :: add_node k node rest
  end.

(** A world with the files [present], one configuration file and one
    initial colony of two cells, in which the optimizer keeps the cells as
    they are, unless [stop] says what it raises on a frame. *)
Definition world (present : list Path) (stop : Path -> option exn) : World := {|
  cpu_count := 4%positive;
  percent := percent03d;
  is_file := fun p => existsb (String.eqb p) present;
  float_of_string := parse floats;
  str := show floats;
  repr := in_quotes;
  read_json := fun p =>
    if String.eqb p "config.json" then Returned config_json
    else Raised (OtherError "FileNotFoundError");
  read_csv := fun p =>
    if String.eqb p "cells.csv" then Returned colony_rows
    else Raised (OtherError "FileNotFoundError");
  open_w := fun _ => Returned tt;
  local_cluster := fun _ => Returned tt;
  connect := fun _ => Returned tt;
  checkconfig := fun _ => Returned tt;
  unnamed_cell := fun x y width length rotation =>
    Returned (Bacilli.make "None" x y width length rotation);
  Store := list (list CellNode);
  Colony := nat;
  LineageFrames := [];
  forward := new_frame;
  add := add_node;
  flatten := fun _ store => store;
  nodes := fun colony store => nth colony store [];
  optimize := fun file store _ _ _ =>
    match stop file with
    | Some e => Raised e
    | None => Returned (new_frame store)
    end;
  auto_temp_schedule := fun _ _ store _ _ =>
    Returned (10.0%float, 1.0%float, store);
  global_optimize := fun files _ _ _ =>
    (map (fun f => (path_name f ++ ",joint")%string) files, Returned tt)
|}.

(** The five frames of the example, in the directory [frames]. *)
Definition five_frames : list Path :=
  ["frames/image000.png"; "frames/image001.png"; "frames/image002.png";
   "frames/image003.png"; "frames/image004.png"].

(** Frames at the indices [-2..1]. *)
Definition early_frames : list Path :=
  ["frames/image-02.png"; "frames/image-01.png"; "frames/image000.png";
   "frames/image001.png"].

Definition never : Path -> option exn := fun _ => None.


(** A command line with the required arguments and [--no_parallel];
    the other options are set by the examples. *)
Definition argv (jobs keep auto_temp first last : option Z)
    (cluster : option string) (global : bool) (ts te : option float) : Argv := {|
  opt_debug := None;
  opt_frame_first := first;
  opt_frame_last := last;
  opt_dist := false;
  opt_workers := None;
  opt_jobs := jobs;
  opt_keep := keep;
  opt_strategy := None;
  opt_cluster := cluster;
  opt_no_parallel := true;
  opt_global_optimization := global;
  opt_graysynthetic := None;
  opt_phaseContractImage := None;
  opt_auto_temp := auto_temp;
  opt_start_temp := ts;
  opt_end_temp := te;
  req_input := "frames/image%03d.png";
  req_output := "out";
  req_config := "config.json";
  req_initial := "cells.csv"
|}.

(** No option given. *)
Definition plain : Argv :=
  argv None None None None None None false None None.

End Demo.

(** ** Vocabulary of the further statements *)

(** The keys [load_config] asks for, in the order it asks. *)
Definition required_keys : list string :=
  ["global.cellType"; "global.pixelsPerMicron"; "global.framesPerSecond"].

(** The first required key a dictionary does not have. *)
Definition first_missing (config : Config) : option string :=
  find (fun key => negb (contains key config)) required_keys.

Definition is_dict (j : json) : bool :=
  match j with JObject _ => true | _ => false end.

Definition is_str (j : json) : bool :=
  match j with JString _ => true | _ => false end.

(** The state [s] after the events [events]. *)
Definition after (s : State) (events : list event) : State :=
  {| lineagefile := lineagefile s; log := log s ++ events |}.

(** The numeric columns of the initial colony, in the order they are read. *)
Definition columns : list string := ["x"; "y"; "width"; "length"; "rotation"].

(** [float(row[key])] as a value, where it has one. *)
Definition number (w : World) (row : Row) (key : string) : option float :=
  match field key row with
  | Some (Some text) => float_of_string w text
  | _ => None
  end.

(** The cell a row describes, when it has a name and its five numbers. *)
Definition cell_of_row (w : World) (row : Row) : option Bacilli.t :=
  match field "name" row, map (number w row) columns with
  | Some (Some name), [Some x; Some y; Some width; Some length; Some rotation] =>
      Some (Bacilli.make name x y width length rotation)
  | _, _ => None
  end.

(** What is wrong with the first of the columns [keys] that cannot be
    read: the row has no such key ([KeyError]), or [None] for it
    ([TypeError]), or a text that is no number ([ValueError]). *)
Fixpoint column_error (w : World) (row : Row) (keys : list string)
    : option exn :=
  match keys with
  | [] => None
  | key :: rest =>
      match field key row with
      | None => Some (KeyError key)
      | Some None => Some TypeError
      | Some (Some text) =>
          match float_of_string w text with
          | None => Some (ValueError (float_msg w text))
          | Some _ => column_error w row rest
          end
      end
  end.

(** What is wrong with a row: the key of its name first, then its numbers. *)
Definition row_error (w : World) (row : Row) : option exn :=
  match field "name" row with
  | None => Some (KeyError "name")
  | Some _ => column_error w row columns
  end.

(** The colony [colony] of [store] with the cells added, one by one. *)
Definition add_cells (w : World) (colony : Colony w) (cells : list Bacilli.t)
    (store : Store w) : Store w :=
  fold_left (fun st c => add w colony {| cell := c |} st) cells store.

(** [args.frame_last = n] *)
Definition set_frame_last (a : Args) (n : Z) : Args := {|
  debug := debug a; frame_first := frame_first a; frame_last := n;
  dist := dist a; workers := workers a; jobs := jobs a; keep := keep a;
  strategy := strategy a; cluster := cluster a; no_parallel := no_parallel a;
  global_optimization := global_optimization a;
  graysynthetic := graysynthetic a; phaseContractImage := phaseContractImage a;
  auto_temp := auto_temp a; start_temp := start_temp a; end_temp := end_temp a;
  input := input a; output := output a; config := config a; initial := initial a
|}.

(** The arguments [a] and [b] differ in [workers] and [jobs] at most. *)
Definition same_but_workers_and_jobs (a b : Args) : Prop :=
  debug a = debug b /\ frame_first a = frame_first b
  /\ frame_last a = frame_last b /\ dist a = dist b /\ keep a = keep b
  /\ strategy a = strategy b /\ cluster a = cluster b
  /\ no_parallel a = no_parallel b
  /\ global_optimization a = global_optimization b
  /\ graysynthetic a = graysynthetic b
  /\ phaseContractImage a = phaseContractImage b
  /\ auto_temp a = auto_temp b /\ start_temp a = start_temp b
  /\ end_temp a = end_temp b /\ input a = input b /\ output a = output b
  /\ config a = config b /\ initial a = initial b.

(** The code [c] leaves the state as it is. *)
Definition silent {A : Type} (c : M A) : Prop := forall s, snd (c s) = s.

(** An optimizer call, if it is one, carries the arguments [a]. *)
Definition optimizes_with (a : Args) (e : event) : Prop :=
  match e with
  | CallOptimize _ a' => a' = a
  | _ => True
  end.

(** The calls to dask. *)
Definition dask_event (e : event) : bool :=
  match e with
  | NewLocalCluster _ | NewClient _ => true
  | _ => false
  end.

(** Further worlds to run the program in. *)
Module Samples.

(** The dictionary of the configuration file of the first examples. *)
Definition config_items : Config :=
  [("global.cellType", JString "Bacilli");
   ("global.pixelsPerMicron", JFloat 10.0%float);
   ("global.framesPerSecond", JInt 2)].

(** The world [w] with another file system: what the configuration and
    colony files hold, and which files are there. *)
Definition with_files (w : World) (json_of : Path -> outcome json)
    (rows_of : Path -> outcome (list Row)) (there : Path -> bool) : World := {|
  cpu_count := cpu_count w;
  percent := percent w;
  is_file := there;
  float_of_string := float_of_string w;
  str := str w;
  repr := repr w;
  read_json := json_of;
  read_csv := rows_of;
  open_w := open_w w;
  local_cluster := local_cluster w;
  connect := connect w;
  checkconfig := checkconfig w;
  unnamed_cell := unnamed_cell w;
  Store := Store w;
  Colony := Colony w;
  LineageFrames := LineageFrames w;
  forward := forward w;
  add := add w;
  flatten := flatten w;
  nodes := nodes w;
  optimize := optimize w;
  auto_temp_schedule := auto_temp_schedule w;
  global_optimize := global_optimize w
|}.

Definition base : World := Demo.world Demo.five_frames Demo.never.

(** The base world with the configuration [j] in every configuration file. *)
Definition configured (j : json) : World :=
  with_files base (fun _ => Returned j) (read_csv base) (is_file base).

(** The base world with the rows [rows] in every colony file. *)
Definition seeded (rows : list Row) : World :=
  with_files base (read_json base) (fun _ => Returned rows) (is_file base).

(** The base world with a file for every frame. *)
Definition endless : World :=
  with_files base (read_json base) (read_csv base) (fun _ => true).

(** The base world without a single frame. *)
Definition frameless : World :=
  with_files base (read_json base) (read_csv base) (fun _ => false).

(** The base world with a scheduler that cannot be reached. *)
Definition offline : World := {|
  cpu_count := cpu_count base;
  percent := percent base;
  is_file := is_file base;
  float_of_string := float_of_string base;
  str := str base;
  repr := repr base;
  read_json := read_json base;
  read_csv := read_csv base;
  open_w := open_w base;
  local_cluster := local_cluster base;
  connect := fun _ => Raised (OtherError "OSError");
  checkconfig := checkconfig base;
  unnamed_cell := unnamed_cell base;
  Store := Store base;
  Colony := Colony base;
  LineageFrames := LineageFrames base;
  forward := forward base;
  add := add base;
  flatten := flatten base;
  nodes := nodes base;
  optimize := optimize base;
  auto_temp_schedule := auto_temp_schedule base;
  global_optimize := global_optimize base
|}.

(** The arguments [a] without [--no_parallel]. *)
Definition in_parallel (a : Args) : Args := {|
  debug := debug a; frame_first := frame_first a; frame_last := frame_last a;
  dist := dist a; workers := workers a; jobs := jobs a; keep := keep a;
  strategy := strategy a; cluster := cluster a; no_parallel := false;
  global_optimization := global_optimization a;
  graysynthetic := graysynthetic a; phaseContractImage := phaseContractImage a;
  auto_temp := auto_temp a; start_temp := start_temp a; end_temp := end_temp a;
  input := input a; output := output a; config := config a; initial := initial a
|}.

(** The arguments of a run with four jobs and nothing else given. *)
Definition four_jobs : Args :=
  set_workers
    (argparse (Demo.argv (Some 4) None None None None None false None None)) 4.

(** The same in the global mode. *)
Definition four_jobs_global : Args :=
  set_workers
    (argparse (Demo.argv (Some 4) None None None None None true None None)) 4.

(** A dictionary without the frame rate and without the cell type. *)
Definition two_missing : Config := [("global.pixelsPerMicron", JInt 10)].

Definition of_type (t : json) : Config :=
  [("global.cellType", t); ("global.pixelsPerMicron", JInt 10);
   ("global.framesPerSecond", JInt 2)].

Definition good_row : Row :=
  [("name", Some "a"); ("x", Some "10.0"); ("y", Some "20.0");
   ("width", Some "4.0"); ("length", Some "10.0"); ("rotation", Some "0.0")].

(** A row whose width is no number and which ends before the rotation. *)
Definition bad_row : Row :=
  [("name", Some "b"); ("x", Some "10.0"); ("y", Some "20.0");
   ("width", Some "wide"); ("length", Some "10.0"); ("rotation", None)].

(** A row that ends before the rotation. *)
Definition short_row : Row :=
  [("name", Some "c"); ("x", Some "10.0"); ("y", Some "20.0");
   ("width", Some "4.0"); ("length", Some "10.0"); ("rotation", None)].

(** A row of a file whose header has no column [y]. *)
Definition row_without_y : Row :=
  [("name", Some "d"); ("x", Some "10.0"); ("width", Some "4.0");
   ("length", Some "10.0"); ("rotation", Some "0.0")].

End Samples.

(** * Properties *)

(** ** [parse_args] *)

(** [parse_args] hands [keep] on as the command line gave it. *)
Lemma parse_args_keep (n : positive) (v : Argv) (a : Args) :
  parse_args n v = Returned a -> keep a = default 1 (opt_keep v).
Proof.
  unfold parse_args.
  destruct (workers (argparse v) =? -1);
    match goal with |- context [jobs ?p =? -1] => destruct (jobs p =? -1) end;
    try match goal with |- context [truthy ?c] => destruct (truthy c) end;
    intros H; inversion H; reflexivity.
Qed.

(** After the first [if], [workers] is not the sentinel. *)
Lemma workers_set (n : positive) (p : Args) :
  workers (if workers p =? -1 then set_workers p (Z.pos n) else p) <> -1.
Proof.
  destruct (workers p =? -1) eqn:E.
  - cbn. lia.
  - apply Z.eqb_neq in E. exact E.
Qed.

(** C1: the constraint keep <= jobs is not enforced.  With [--jobs 2
    --keep 5], [parse_args] returns the arguments with [keep = 5] and
    [jobs = 2], and the program runs to the end: the optimizer is called on
    a frame with [keep > jobs], and the exit status is 0. *)
Theorem keep_above_jobs_is_accepted :
  let v := Demo.argv (Some 2) (Some 5) (Some 0) None None None false
                     (Some 10.0%float) (Some 1.0%float) in
  let w := Demo.world Demo.five_frames Demo.never in
  (exists a, parse_args (cpu_count w) v = Returned a /\ keep a = 5 /\ jobs a = 2)
  /\ fst (program w 10 v) = Returned 0
  /\ existsb keep_above_jobs (log (snd (program w 10 v))) = true.
Proof.
  cbv zeta. split; [ | split ].
  - eexists. split; [ reflexivity | split; reflexivity ].
  - vm_compute. reflexivity.
  - vm_compute. reflexivity.
Qed.

(** C7: a cluster address without [--jobs] makes [parse_args] raise, and
    the program ends there, before [main] has done anything; without a
    cluster address and without [--jobs], [jobs] is [workers], which is the
    processor count when [--workers] is not given either; and whenever
    [parse_args] returns, [jobs] is not the sentinel -1. *)
Theorem parse_args_jobs (w : World) (fuel : nat) (v : Argv) :
  (opt_jobs v = None -> truthy (default "" (opt_cluster v)) = true ->
     parse_args (cpu_count w) v = Raised (ValueError jobs_required_msg)
     /\ program w fuel v = (Raised (ValueError jobs_required_msg), initial_state))
  /\ (opt_jobs v = None -> truthy (default "" (opt_cluster v)) = false ->
      exists a, parse_args (cpu_count w) v = Returned a
                /\ jobs a = workers a
                /\ (opt_workers v = None -> workers a = Z.pos (cpu_count w)))
  /\ (forall a, parse_args (cpu_count w) v = Returned a -> jobs a <> -1).
Proof.
  split; [ | split ].
  - intros Hj Hc.
    assert (E : parse_args (cpu_count w) v = Raised (ValueError jobs_required_msg)).
    { unfold parse_args.
      destruct (workers (argparse v) =? -1); cbn; rewrite Hj; cbn;
        rewrite Hc; reflexivity. }
    split; [ exact E | unfold program; rewrite E; reflexivity ].
  - intros Hj Hc. unfold parse_args.
    destruct (workers (argparse v) =? -1) eqn:Ew; cbn; rewrite Hj; cbn;
      rewrite Hc; eexists; (split; [ reflexivity | split; [ reflexivity | ] ]).
    + reflexivity.
    + intros Hw. cbn in Ew. rewrite Hw in Ew. discriminate.
  - intros a H. unfold parse_args in H.
    pose proof (workers_set (cpu_count w) (argparse v)) as Hw.
    set (p := if workers (argparse v) =? -1
              then set_workers (argparse v) (Z.pos (cpu_count w))
              else argparse v) in *.
    destruct (jobs p =? -1) eqn:Ej.
    + destruct (truthy (cluster p)); inversion H; subst a. cbn. exact Hw.
    + inversion H; subst a. apply Z.eqb_neq in Ej. exact Ej.
Qed.

Lemma parse_args_jobs_witness :
  let w := Demo.world Demo.five_frames Demo.never in
  program w 10 (Demo.argv None None None None None (Some "tcp://10.0.0.7:8786")
                          false None None)
  = (Raised (ValueError jobs_required_msg), initial_state)
  /\ (exists a, parse_args (cpu_count w) Demo.plain = Returned a
                /\ jobs a = workers a /\ workers a = 4).
Proof.
  cbv zeta. split.
  - apply (proj1 (parse_args_jobs (Demo.world Demo.five_frames Demo.never) 10 _));
      reflexivity.
  - destruct (proj1 (proj2 (parse_args_jobs (Demo.world Demo.five_frames Demo.never)
                                            10 Demo.plain)) eq_refl eq_refl)
      as [a [Ha [Hj Hw]]].
    exists a. split; [ exact Ha | split; [ exact Hj | exact (Hw eq_refl) ] ].
Defined.

(** ** [get_inputfiles] *)

Section Frames.

Variable w : World.
Variable a : Args.

Lemma run_from_S (i : Z) (n : nat) :
  run_from i (S n) = i :: run_from (i + 1) n.
Proof.
  unfold run_from. cbn [seq map]. f_equal.
  - lia.
  - rewrite <- seq_shift, map_map. apply map_ext. intros k. lia.
Qed.

Lemma run_from_snoc (i : Z) (n : nat) :
  run_from i (S n) = run_from i n ++ [i + Z.of_nat n].
Proof.
  unfold run_from. rewrite seq_S, map_app. reflexivity.
Qed.

(** As long as the files are there and the last frame is not reached, the
    loop collects them and goes on. *)
Lemma count_loop_run (n fuel : nat) :
  forall (i : Z) (acc : list Path),
    (forall k, i <= k < i + Z.of_nat n ->
               is_file w (frame_file w a k) = true /\ k <> frame_last a) ->
    count_loop w (n + fuel) a i acc
    = count_loop w fuel a (i + Z.of_nat n) (acc ++ map (frame_file w a) (run_from i n)).
Proof.
  induction n as [ | n IH ]; intros i acc H.
  - cbn. rewrite Z.add_0_r, app_nil_r. reflexivity.
  - destruct (H i ltac:(lia)) as [Hf Hl].
    cbn [Nat.add count_loop]. fold (frame_file w a i). rewrite Hf.
    apply Z.eqb_neq in Hl. rewrite Hl.
    rewrite IH by (intros k Hk; apply H; lia).
    rewrite run_from_S. cbn [map]. rewrite <- app_assoc. cbn [app].
    f_equal. lia.
Qed.

(** Whatever the loop returns extends what it had collected. *)
Lemma count_loop_extends (fuel : nat) :
  forall (i : Z) (acc files : list Path),
    count_loop w fuel a i acc = Returned files ->
    exists more, files = acc ++ more.
Proof.
  induction fuel as [ | fuel IH ]; intros i acc files H; [ discriminate | ].
  cbn [count_loop] in H.
  destruct (is_file w (percent w (input a) i)).
  - destruct (i =? frame_last a).
    + inversion H. eexists. reflexivity.
    + apply IH in H. destruct H as [more ->].
      rewrite <- app_assoc. eexists. reflexivity.
  - destruct ((frame_last a <? 0) && negb (frame_first a =? i)).
    + inversion H. exists []. rewrite app_nil_r. reflexivity.
    + discriminate.
Qed.

(** The only exception of the loop is the missing input file. *)
Lemma count_loop_raises (fuel : nat) :
  forall (i : Z) (acc : list Path) (e : exn),
    count_loop w fuel a i acc = Raised e ->
    exists file, e = ValueError (not_found_msg file).
Proof.
  induction fuel as [ | fuel IH ]; intros i acc e H; [ discriminate | ].
  cbn [count_loop] in H.
  destruct (is_file w (percent w (input a) i)).
  - destruct (i =? frame_last a); [ discriminate | ].
    apply IH in H. exact H.
  - destruct ((frame_last a <? 0) && negb (frame_first a =? i)).
    + discriminate.
    + inversion H. eexists. reflexivity.
Qed.

(** [get_inputfiles] never returns an empty list. *)
Lemma get_inputfiles_nonempty (fuel : nat) (files : list Path) :
  get_inputfiles w fuel a = Returned files -> files <> [].
Proof.
  unfold get_inputfiles.
  destruct (interval_guard a); [ discriminate | ].
  destruct (frame_first a <? 0); [ discriminate | ].
  destruct fuel as [ | fuel ]; [ discriminate | ].
  cbn [count_loop].
  destruct (is_file w (percent w (input a) (frame_first a))).
  - destruct (frame_first a =? frame_last a).
    + intros H. inversion H. discriminate.
    + intros H. apply count_loop_extends in H. destruct H as [more ->].
      discriminate.
  - rewrite Z.eqb_refl, andb_false_r. discriminate.
Qed.

Lemma interval_guard_false : interval_guard a = false.
Proof. unfold interval_guard. rewrite Z.ltb_irrefl. reflexivity. Qed.

Lemma interval_msg_not_found (file : Path) :
  ValueError (not_found_msg file) <> ValueError interval_msg.
Proof. unfold not_found_msg, interval_msg. cbn. discriminate. Qed.

(** With a first frame that is not negative, the function is its loop. *)
Lemma get_inputfiles_loop (fuel : nat) :
  0 <= frame_first a ->
  get_inputfiles w fuel a = count_loop w fuel a (frame_first a) [].
Proof.
  intros H. unfold get_inputfiles. rewrite interval_guard_false.
  destruct (frame_first a <? 0) eqn:E; [ | reflexivity ].
  apply Z.ltb_lt in E. lia.
Qed.

(** C3, amended: with [frame_first >= 0] and the files of the frames
    [frame_first..N] present, an open-ended call ([frame_last = -1]) whose
    first missing frame is [N + 1] returns exactly the files of
    [frame_first..N], in order; a call with [frame_last = L],
    [frame_first <= L <= N], returns exactly the files of [frame_first..L],
    whatever files lie beyond [L].  In both cases every amount of fuel from
    some point on gives that result. *)
Theorem get_inputfiles_frames (N : Z) :
  0 <= frame_first a <= N ->
  (forall i, frame_first a <= i <= N -> is_file w (frame_file w a i) = true) ->
  (frame_last a = -1 -> is_file w (frame_file w a (N + 1)) = false ->
   exists fuel0, forall fuel, (fuel0 <= fuel)%nat ->
     get_inputfiles w fuel a = Returned (frame_files w a (frame_first a) N))
  /\ (frame_first a <= frame_last a <= N ->
      exists fuel0, forall fuel, (fuel0 <= fuel)%nat ->
        get_inputfiles w fuel a
        = Returned (frame_files w a (frame_first a) (frame_last a))).
Proof.
  intros Hfirst Hfiles. split.
  - intros Hlast Hmissing.
    exists (S (Z.to_nat (N - frame_first a + 1))). intros fuel Hfuel.
    rewrite get_inputfiles_loop by lia.
    set (n := Z.to_nat (N - frame_first a + 1)) in *.
    replace fuel with (n + S (fuel - S n))%nat by lia.
    rewrite count_loop_run.
    + cbn [count_loop app].
      replace (frame_first a + Z.of_nat n) with (N + 1) by lia.
      fold (frame_file w a (N + 1)). rewrite Hmissing.
      replace (frame_last a <? 0) with true by (symmetry; apply Z.ltb_lt; lia).
      replace (frame_first a =? N + 1) with false
        by (symmetry; apply Z.eqb_neq; lia).
      reflexivity.
    + intros k Hk. split; [ apply Hfiles; lia | lia ].
  - intros Hlast.
    exists (S (Z.to_nat (frame_last a - frame_first a))). intros fuel Hfuel.
    rewrite get_inputfiles_loop by lia.
    set (n := Z.to_nat (frame_last a - frame_first a)) in *.
    replace fuel with (n + S (fuel - S n))%nat by lia.
    rewrite count_loop_run.
    + cbn [count_loop app].
      replace (frame_first a + Z.of_nat n) with (frame_last a) by lia.
      fold (frame_file w a (frame_last a)). rewrite Hfiles by lia.
      rewrite Z.eqb_refl. f_equal.
      unfold frame_files, frames_between.
      replace (Z.to_nat (frame_last a - frame_first a + 1)) with (S n) by lia.
      fold (run_from (frame_first a) (S n)).
      rewrite run_from_snoc, map_app. cbn [map].
      replace (frame_first a + Z.of_nat n) with (frame_last a) by lia.
      reflexivity.
    + intros k Hk. split; [ apply Hfiles; lia | lia ].
Qed.

(** C8: the guard of the invalid-interval branch is false for every
    input, so [get_inputfiles] never raises that error; a call with
    [0 <= frame_last < frame_first] goes into the loop, where the only
    error is a missing file, and it never returns a list. *)
Theorem interval_check_is_dead (fuel : nat) :
  interval_guard a = false
  /\ get_inputfiles w fuel a <> Raised (ValueError interval_msg)
  /\ (0 <= frame_last a < frame_first a ->
      get_inputfiles w fuel a = count_loop w fuel a (frame_first a) []
      /\ (get_inputfiles w fuel a = OutOfFuel
          \/ exists file,
               get_inputfiles w fuel a = Raised (ValueError (not_found_msg file)))).
Proof.
  split; [ exact interval_guard_false | split ].
  - unfold get_inputfiles. rewrite interval_guard_false.
    destruct (frame_first a <? 0).
    + unfold negative_first_msg, interval_msg. discriminate.
    + intros H. apply count_loop_raises in H. destruct H as [file H].
      symmetry in H. revert H. apply interval_msg_not_found.
  - intros H. rewrite get_inputfiles_loop by lia.
    split; [ reflexivity | ].
    assert (G : forall n i acc, frame_first a <= i ->
              count_loop w n a i acc = OutOfFuel
              \/ exists file,
                   count_loop w n a i acc = Raised (ValueError (not_found_msg file))).
    { induction n as [ | n IH ]; intros i acc Hi; [ left; reflexivity | ].
      cbn [count_loop].
      destruct (is_file w (percent w (input a) i)).
      - replace (i =? frame_last a) with false
          by (symmetry; apply Z.eqb_neq; lia).
        apply IH. lia.
      - replace (frame_last a <? 0) with false
          by (symmetry; apply Z.ltb_ge; lia).
        right. eexists. reflexivity. }
    apply G. lia.
Qed.

(** C9, amended: with [frame_first >= 0], an open-ended call
    ([frame_last = -1]) whose first file is missing raises the error of
    the missing input file, with any fuel that lets the loop start; and
    [get_inputfiles] returns no empty list. *)
Theorem open_ended_needs_first_frame (fuel : nat) :
  0 <= frame_first a ->
  frame_last a = -1 ->
  is_file w (frame_file w a (frame_first a)) = false ->
  get_inputfiles w (S fuel) a
  = Raised (ValueError (not_found_msg (frame_file w a (frame_first a))))
  /\ forall n, get_inputfiles w n a <> Returned [].
Proof.
  intros Hfirst Hlast Hmissing. split.
  - rewrite get_inputfiles_loop by lia. cbn [count_loop].
    fold (frame_file w a (frame_first a)). rewrite Hmissing.
    rewrite Z.eqb_refl, andb_false_r. reflexivity.
  - intros n H. apply get_inputfiles_nonempty in H. apply H. reflexivity.
Qed.

End Frames.

(** The calls of Section [Frames] at concrete frames. *)

Lemma get_inputfiles_frames_witness :
  let w := Demo.world Demo.five_frames Demo.never in
  (exists fuel0, forall fuel, (fuel0 <= fuel)%nat ->
     get_inputfiles w fuel (argparse Demo.plain) = Returned Demo.five_frames)
  /\ (exists fuel0, forall fuel, (fuel0 <= fuel)%nat ->
        get_inputfiles w fuel
          (argparse (Demo.argv None None None None (Some 2) None false None None))
        = Returned ["frames/image000.png"; "frames/image001.png";
                    "frames/image002.png"]).
Proof.
  cbv zeta.
  assert (F : forall a, input a = "frames/image%03d.png" ->
            forall i, 0 <= i <= 4 ->
            is_file (Demo.world Demo.five_frames Demo.never)
                    (percent (Demo.world Demo.five_frames Demo.never) (input a) i)
            = true).
  { intros a E i Hi. rewrite E.
    assert (C : i = 0 \/ i = 1 \/ i = 2 \/ i = 3 \/ i = 4) by lia.
    destruct C as [-> | [-> | [-> | [-> | ->]]]]; reflexivity. }
  split.
  - refine (proj1 (get_inputfiles_frames (Demo.world Demo.five_frames Demo.never)
                     (argparse Demo.plain) 4 _ _) _ _).
    + cbn. lia.
    + apply F. reflexivity.
    + reflexivity.
    + reflexivity.
  - refine (proj2 (get_inputfiles_frames (Demo.world Demo.five_frames Demo.never)
                     (argparse (Demo.argv None None None None (Some 2) None false
                                          None None)) 4 _ _) _).
    + cbn. lia.
    + apply F. reflexivity.
    + cbn. lia.
Defined.

(** C3 as stated fails on a negative first frame: the files of the frames
    [-2..1] are present and frame 2 is missing, and the open-ended call
    from frame [-2] returns no list, it raises. *)
Lemma negative_first_frame_is_rejected :
  let w := Demo.world Demo.early_frames Demo.never in
  let a := argparse (Demo.argv None None None (Some (-2)) None None false
                               None None) in
  forallb (fun i => is_file w (percent w (input a) i)) (frames_between (-2) 1)
  = true
  /\ is_file w (percent w (input a) 2) = false
  /\ frame_last a = -1
  /\ (forall fuel, get_inputfiles w fuel a = Raised (ValueError negative_first_msg))
  /\ (forall fuel, get_inputfiles w fuel a <> Returned (frame_files w a (-2) 1)).
Proof.
  cbv zeta.
  assert (E : forall fuel,
            get_inputfiles (Demo.world Demo.early_frames Demo.never) fuel
              (argparse (Demo.argv None None None (Some (-2)) None None false
                                   None None))
            = Raised (ValueError negative_first_msg)) by (intros fuel; reflexivity).
  split; [ reflexivity | ].
  split; [ reflexivity | ].
  split; [ reflexivity | ].
  split; [ exact E | ].
  intros fuel. rewrite E. discriminate.
Qed.

Lemma interval_check_is_dead_witness :
  let w := Demo.world Demo.five_frames Demo.never in
  let a := argparse (Demo.argv None None None (Some 3) (Some 1) None false
                               None None) in
  get_inputfiles w 10 a = count_loop w 10 a 3 []
  /\ get_inputfiles w 10 a
     = Raised (ValueError (not_found_msg "frames/image005.png")).
Proof.
  cbv zeta. split.
  - apply (proj2 (proj2 (interval_check_is_dead
                           (Demo.world Demo.five_frames Demo.never)
                           (argparse (Demo.argv None None None (Some 3) (Some 1)
                                                None false None None)) 10))).
    cbn. lia.
  - reflexivity.
Defined.

(** C9 as stated fails on a negative first frame: the open-ended call from
    frame [-1], whose file is missing, raises the error of the negative
    first frame and not the error of the missing file. *)
Lemma negative_first_frame_other_error :
  let w := Demo.world Demo.five_frames Demo.never in
  let a := argparse (Demo.argv None None None (Some (-1)) None None false
                               None None) in
  frame_last a = -1
  /\ is_file w (percent w (input a) (frame_first a)) = false
  /\ get_inputfiles w 10 a = Raised (ValueError negative_first_msg)
  /\ get_inputfiles w 10 a
     <> Raised (ValueError (not_found_msg (percent w (input a) (frame_first a)))).
Proof.
  cbv zeta.
  split; [ reflexivity | ].
  split; [ reflexivity | ].
  split; [ reflexivity | ].
  vm_compute. discriminate.
Qed.

Lemma open_ended_needs_first_frame_witness :
  let w := Demo.world Demo.five_frames Demo.never in
  let a := argparse (Demo.argv None None None (Some 7) None None false
                               None None) in
  get_inputfiles w 1 a
  = Raised (ValueError (not_found_msg "frames/image007.png")).
Proof.
  cbv zeta.
  apply (proj1 (open_ended_needs_first_frame
                  (Demo.world Demo.five_frames Demo.never)
                  (argparse (Demo.argv None None None (Some 7) None None false
                                       None None))
                  0 ltac:(cbn; lia) eq_refl eq_refl)).
Defined.

(** ** The monad of [main] *)

Lemma bind_returned {A B : Type} (c : M A) (k : A -> M B) (s s' : State) (x : A) :
  c s = (Returned x, s') -> bind c k s = k x s'.
Proof. intros H. unfold bind. rewrite H. reflexivity. Qed.

Lemma bind_raised {A B : Type} (c : M A) (k : A -> M B) (s s' : State) (e : exn) :
  c s = (Raised e, s') -> bind c k s = (Raised e, s').
Proof. intros H. unfold bind. rewrite H. reflexivity. Qed.

Lemma bind_out_of_fuel {A B : Type} (c : M A) (k : A -> M B) (s s' : State) :
  c s = (OutOfFuel, s') -> bind c k s = (OutOfFuel, s').
Proof. intros H. unfold bind. rewrite H. reflexivity. Qed.

(** A successful [bind] is two successful steps. *)
Lemma bind_inversion {A B : Type} (c : M A) (k : A -> M B) (s s' : State) (y : B) :
  bind c k s = (Returned y, s') ->
  exists x s1, c s = (Returned x, s1) /\ k x s1 = (Returned y, s').
Proof.
  unfold bind. destruct (c s) as [[x | e | ] s1]; intros H; try discriminate.
  exists x, s1. split; [ reflexivity | exact H ].
Qed.

Lemma call_run {A : Type} (e : event) (o : outcome A) (s : State) :
  call e o s = (o, {| lineagefile := lineagefile s; log := log s ++ [e] |}).
Proof. unfold call, bind, emit, lift. destruct o; reflexivity. Qed.

Lemma state_with_file (s : State) (f : File) :
  lineagefile s = Some f -> s = with_file f (log s).
Proof. destruct s as [lf lg]. cbn. intros ->. reflexivity. Qed.

Lemma add_lines_nil (f : File) : add_lines f [] = f.
Proof. destruct f. unfold add_lines. cbn. rewrite app_nil_r. reflexivity. Qed.

Lemma add_lines_app (f : File) (l1 l2 : list string) :
  add_lines (add_lines f l1) l2 = add_lines f (l1 ++ l2).
Proof. unfold add_lines. cbn. rewrite app_assoc. reflexivity. Qed.

Lemma print_line_run (line : string) (f : File) (events : list event) :
  print_line line (with_file f events)
  = (Returned tt, with_file (add_lines f [line]) events).
Proof. reflexivity. Qed.

Lemma print_lines_run (l : list string) :
  forall (f : File) (events : list event),
    print_lines l (with_file f events)
    = (Returned tt, with_file (add_lines f l) events).
Proof.
  induction l as [ | line rest IH ]; intros f events.
  - cbn. rewrite add_lines_nil. reflexivity.
  - cbn [print_lines]. rewrite (bind_returned _ _ _ _ _ (print_line_run _ _ _)).
    rewrite IH, add_lines_app. reflexivity.
Qed.

(** ** The rows of a frame *)

Lemma header_bacilli : join "," (header "bacilli") = lineage_header.
Proof. reflexivity. Qed.

Lemma properties_bacilli (w : World) (imagefile : Path) (cellnode : CellNode) :
  join "," (properties w "bacilli" imagefile cellnode)
  = lineage_row w imagefile cellnode.
Proof. reflexivity. Qed.

Lemma write_cells_run (w : World) (imagefile : Path) (cellnodes : list CellNode) :
  forall (f : File) (events : list event),
    write_cells w "bacilli" imagefile cellnodes (with_file f events)
    = (Returned tt,
       with_file (add_lines f (map (lineage_row w imagefile) cellnodes)) events).
Proof.
  induction cellnodes as [ | cellnode rest IH ]; intros f events.
  - cbn. rewrite add_lines_nil. reflexivity.
  - cbn [write_cells map]. rewrite properties_bacilli.
    rewrite (bind_returned _ _ _ _ _ (print_line_run _ _ _)).
    rewrite IH, add_lines_app. reflexivity.
Qed.

Section Loop.

Variable w : World.
Variable a : Args.
Variable config : Config.
Variable client : Client.

(** The frame loop on an open lineage file: it ends as the chain of
    optimizations ends, the file has gained the rows of the completed
    frames, and the log the calls of the optimizer. *)
Lemma frame_loop_run (inputfiles : list Path) :
  forall (store : Store w) (f : File) (events : list event)
         (done : list Frame) (result : outcome unit),
    optimizer_chain w a config client inputfiles store = (done, result) ->
    frame_loop w a config client "bacilli" inputfiles store (with_file f events)
    = (result,
       with_file (add_lines f (flat_map (frame_rows w) done))
                 (events ++ optimizer_calls a inputfiles done result)).
Proof.
  induction inputfiles as [ | imagefile rest IH ];
    intros store f events done result H.
  - cbn in H. inversion H; subst. cbn.
    rewrite add_lines_nil, app_nil_r. reflexivity.
  - cbn [optimizer_chain] in H. cbn [frame_loop].
    destruct (optimize w imagefile store a config client)
      as [[colony store'] | e | ] eqn:E.
    + destruct (optimizer_chain w a config client rest (flatten w colony store'))
        as [done' result'] eqn:C.
      inversion H; subst done result; clear H.
      rewrite (bind_returned _ _ _ _ _ (call_run _ _ _)).
      cbn [lineagefile log with_file].
      change {| lineagefile := Some f;
                log := events ++ [CallOptimize imagefile a] |}
        with (with_file f (events ++ [CallOptimize imagefile a])).
      rewrite (bind_returned _ _ _ _ _ (write_cells_run _ _ _ _ _)).
      rewrite (IH _ _ _ _ _ C), add_lines_app, <- app_assoc.
      reflexivity.
    + inversion H; subst done result; clear H.
      rewrite (bind_raised _ _ _ _ _ (call_run _ _ _)).
      cbn. rewrite add_lines_nil. reflexivity.
    + inversion H; subst done result; clear H.
      rewrite (bind_out_of_fuel _ _ _ _ (call_run _ _ _)).
      cbn. rewrite add_lines_nil. reflexivity.
Qed.

(** The completed frames are the first of the input files, in order; all
    of them when every optimization returned, and not all otherwise. *)
Lemma optimizer_chain_files (inputfiles : list Path) :
  forall (store : Store w) (done : list Frame) (result : outcome unit),
    optimizer_chain w a config client inputfiles store = (done, result) ->
    map fst done = firstn (List.length done) inputfiles
    /\ (result = Returned tt -> map fst done = inputfiles)
    /\ (result <> Returned tt ->
        (List.length done < List.length inputfiles)%nat).
Proof.
  induction inputfiles as [ | imagefile rest IH ]; intros store done result H.
  - cbn in H. inversion H; subst. cbn.
    split; [ reflexivity | split; [ reflexivity | ] ].
    intros N. exfalso. apply N. reflexivity.
  - cbn [optimizer_chain] in H.
    destruct (optimize w imagefile store a config client)
      as [[colony store'] | e | ] eqn:E.
    + destruct (optimizer_chain w a config client rest (flatten w colony store'))
        as [done' result'] eqn:C.
      inversion H; subst done result; clear H.
      destruct (IH _ _ _ C) as [P [Q R]]. cbn.
      split; [ f_equal; exact P | split ].
      * intros X. f_equal. exact (Q X).
      * intros X. apply R in X. lia.
    + inversion H; subst. cbn.
      split; [ reflexivity | split; [ discriminate | lia ] ].
    + inversion H; subst. cbn.
      split; [ reflexivity | split; [ discriminate | lia ] ].
Qed.

End Loop.

(** ** The steps of [main] *)

Section Steps.

Variable w : World.

(** A configuration that [load_config] accepts is one of bacilli. *)
Lemma load_config_celltype (p : Path) (s s' : State) (cfg : Config) :
  load_config w p s = (Returned cfg, s') ->
  celltype_of cfg = Returned "bacilli".
Proof.
  unfold load_config. intros H.
  apply bind_inversion in H. destruct H as (loaded & s1 & _ & H).
  destruct loaded as [ | b | n | f | t | l | items ]; try discriminate.
  destruct (contains "global.cellType" items); [ | discriminate ].
  destruct (contains "global.pixelsPerMicron" items); [ | discriminate ].
  destruct (contains "global.framesPerSecond" items); [ | discriminate ].
  cbn [negb] in H.
  apply bind_inversion in H. destruct H as (ct & s2 & Hct & H).
  unfold lift in Hct. inversion Hct; subst s2; clear Hct.
  destruct (String.eqb ct "bacilli") eqn:E; [ | discriminate ].
  apply String.eqb_eq in E. subst ct.
  apply bind_inversion in H. destruct H as (u & s3 & _ & H).
  unfold ret in H. inversion H; subst. assumption.
Qed.

(** When [prepare] succeeds the cell type is bacilli and the lineage file
    is open with the header as its only line. *)
Lemma prepare_run (a : Args) (s s1 : State) (cfg : Config) (ct : string)
    (st : Store w) :
  prepare w a s = (Returned (cfg, ct, st), s1) ->
  ct = "bacilli" /\ s1 = with_file (lineage_file [] false) (log s1).
Proof.
  unfold prepare. intros H.
  apply bind_inversion in H. destruct H as (cfg' & s2 & Hcfg & H).
  apply load_config_celltype in Hcfg.
  apply bind_inversion in H. destruct H as (ct' & s3 & Hct & H).
  unfold lift in Hct. rewrite Hcfg in Hct. inversion Hct; subst ct' s3; clear Hct.
  destruct (forward w (LineageFrames w)) as [colony st0].
  apply bind_inversion in H. destruct H as (st1 & s4 & _ & H).
  apply bind_inversion in H. destruct H as (u & s5 & Hopen & H).
  unfold open_lineage in Hopen.
  apply bind_inversion in Hopen. destruct Hopen as (u' & s6 & _ & Hopen).
  inversion Hopen; subst u s5; clear Hopen.
  apply bind_inversion in H. destruct H as (u & s7 & Hprint & H).
  cbn in Hprint. inversion Hprint; subst u s7; clear Hprint.
  unfold ret in H. inversion H; subst. split; reflexivity.
Qed.

(** Calibration leaves the lineage file alone. *)
Lemma calibrate_file (fuel : nat) (a : Args) (cfg : Config) (st : Store w)
    (s : State) :
  lineagefile (snd (calibrate w fuel a cfg st s)) = lineagefile s.
Proof.
  unfold calibrate. destruct (auto_temp a =? 1); [ | reflexivity ].
  unfold bind, lift.
  destruct (get_inputfiles w fuel a) as [files | e | ]; try reflexivity.
  destruct (first_item files) as [file | e | ]; try reflexivity.
  destruct (forward w st) as [colony st'].
  rewrite call_run.
  destruct (auto_temp_schedule w file colony st' a cfg)
    as [[[t e] st''] | e | ]; reflexivity.
Qed.

(** Without auto mode, calibration does nothing. *)
Lemma calibrate_manual (fuel : nat) (a : Args) (cfg : Config) (st : Store w)
    (s : State) :
  auto_temp a <> 1 -> calibrate w fuel a cfg st s = (Returned (a, st), s).
Proof.
  intros H. unfold calibrate. apply Z.eqb_neq in H. rewrite H. reflexivity.
Qed.

(** Starting the client leaves the lineage file alone. *)
Lemma start_client_file (a : Args) (s : State) :
  lineagefile (snd (start_client w a s)) = lineagefile s.
Proof.
  unfold start_client, bind, call, bind, emit, lift, ret.
  destruct (no_parallel a); [ reflexivity | ].
  destruct (truthy (cluster a)); cbn.
  - destruct (connect w _); reflexivity.
  - destruct (local_cluster w _); try reflexivity.
    destruct (connect w _); reflexivity.
Qed.

Section Run.

Variable fuel : nat.
Variable a : Args.
Variable client : Client.
Variable s0 s1 : State.
Variable cfg : Config.
Variable ct : string.
Variable st : Store w.

Hypothesis no_conflict : temp_conflict a = false.
Hypothesis client_started : start_client w a initial_state = (Returned client, s0).
Hypothesis prepared : prepare w a s0 = (Returned (cfg, ct, st), s1).

(** The greedy mode: the run ends as the chain of optimizations ends, with
    the lineage file closed and holding the header and the rows of the
    completed frames. *)
Lemma main_greedy_run (a' : Args) (st' : Store w) (s2 : State)
    (files : list Path) (done : list Frame) (result : outcome unit) :
  global_optimization a = false ->
  calibrate w fuel a cfg st s1 = (Returned (a', st'), s2) ->
  get_inputfiles w fuel a' = Returned files ->
  optimizer_chain w a' cfg client files st' = (done, result) ->
  main w fuel a initial_state
  = (exit_of result,
     with_file (lineage_file (flat_map (frame_rows w) done) (exits result))
               (log s2 ++ optimizer_calls a' files done result
                ++ (if exits result then [CloseFile] else []))).
Proof.
  intros Hg Hcal Hfiles Hchain.
  destruct (prepare_run _ _ _ _ _ _ prepared) as [-> Hs1].
  assert (Hs2 : s2 = with_file (lineage_file [] false) (log s2)).
  { apply state_with_file.
    pose proof (calibrate_file fuel a cfg st s1) as E.
    rewrite Hcal, Hs1 in E. exact E. }
  unfold main. fold (temp_conflict a). rewrite no_conflict.
  rewrite (bind_returned _ _ _ _ _ client_started).
  unfold try_finally, reraise_interrupt, main_body.
  rewrite (bind_returned _ _ _ _ _ prepared). rewrite Hg.
  rewrite (bind_returned _ _ _ _ _ Hcal).
  unfold lift at 1. unfold bind at 1. rewrite Hfiles.
  rewrite Hs2. unfold bind.
  rewrite (frame_loop_run w a' cfg client files st' _ _ done result Hchain).
  unfold add_lines, lineage_file. cbn [lines closed app].
  destruct result as [[] | e | ].
  - cbn. rewrite <- app_assoc. reflexivity.
  - destruct e; cbn; rewrite <- app_assoc; reflexivity.
  - cbn. rewrite app_nil_r. reflexivity.
Qed.

(** An exception out of the calibration ends [main] with the lineage
    file closed on its header. *)
Lemma main_calibration_raises (e : exn) (s2 : State) :
  global_optimization a = false ->
  calibrate w fuel a cfg st s1 = (Raised e, s2) ->
  main w fuel a initial_state
  = (Raised e, with_file (lineage_file [] true) (log s2 ++ [CloseFile])).
Proof.
  intros Hg Hcal.
  destruct (prepare_run _ _ _ _ _ _ prepared) as [-> Hs1].
  assert (Hs2 : s2 = with_file (lineage_file [] false) (log s2)).
  { apply state_with_file.
    pose proof (calibrate_file fuel a cfg st s1) as E.
    rewrite Hcal, Hs1 in E. exact E. }
  unfold main. fold (temp_conflict a). rewrite no_conflict.
  rewrite (bind_returned _ _ _ _ _ client_started).
  unfold try_finally, reraise_interrupt, main_body.
  rewrite (bind_returned _ _ _ _ _ prepared). rewrite Hg.
  rewrite (bind_raised _ _ _ _ _ Hcal). rewrite Hs2.
  destruct e; reflexivity.
Qed.

(** The global mode: when the global optimizer returns, so does [main],
    and the only thing left to do is to close the file. *)
Lemma main_global_run (files : list Path) (written : list string)
    (result : outcome unit) :
  global_optimization a = true ->
  get_inputfiles w fuel a = Returned files ->
  global_optimize w files st a cfg = (written, result) ->
  result <> OutOfFuel ->
  main w fuel a initial_state
  = (exit_of result,
     with_file (lineage_file written true)
               (log s1 ++ [CallGlobalOptimize files; CloseFile])).
Proof.
  intros Hg Hfiles Hglobal Hfuel.
  destruct (prepare_run _ _ _ _ _ _ prepared) as [-> Hs1].
  unfold main. fold (temp_conflict a). rewrite no_conflict.
  rewrite (bind_returned _ _ _ _ _ client_started).
  unfold try_finally, reraise_interrupt, main_body.
  rewrite (bind_returned _ _ _ _ _ prepared). rewrite Hg.
  unfold lift at 1. unfold bind at 1. rewrite Hfiles.
  unfold run_global. rewrite Hglobal.
  rewrite Hs1. unfold bind at 1. unfold bind at 1. unfold emit.
  cbn [lineagefile log with_file].
  change {| lineagefile := Some (lineage_file [] false);
            log := log s1 ++ [CallGlobalOptimize files] |}
    with (with_file (lineage_file [] false) (log s1 ++ [CallGlobalOptimize files])).
  rewrite (bind_returned _ _ _ _ _ (print_lines_run _ _ _)).
  unfold lift, add_lines, lineage_file. cbn [lines closed app].
  destruct result as [[] | e | ].
  - cbn. rewrite <- app_assoc. reflexivity.
  - destruct e; cbn; rewrite <- app_assoc; reflexivity.
  - exfalso. apply Hfuel. reflexivity.
Qed.

End Run.

End Steps.

(** ** What the log of [main] can hold *)

Section Log.

Variable w : World.
Variable P : event -> Prop.

(** [P] holds of every event outside the greedy mode. *)
Hypothesis P_other : forall e, greedy_event e = false -> P e.

Lemma keeps_ret {A : Type} (x : A) : keeps P (ret x).
Proof. intros s H. exact H. Qed.

Lemma keeps_raise {A : Type} (e : exn) : keeps P (@raise A e).
Proof. intros s H. exact H. Qed.

Lemma keeps_lift {A : Type} (o : outcome A) : keeps P (lift o).
Proof. intros s H. exact H. Qed.

Lemma keeps_bind {A B : Type} (c : M A) (k : A -> M B) :
  keeps P c -> (forall x, keeps P (k x)) -> keeps P (bind c k).
Proof.
  intros Hc Hk s H. unfold bind. specialize (Hc s H).
  destruct (c s) as [[x | e | ] s']; cbn in *; try exact Hc.
  apply Hk. exact Hc.
Qed.

Lemma keeps_ext {A : Type} (c c' : M A) :
  (forall s, c s = c' s) -> keeps P c' -> keeps P c.
Proof. intros E H s Hs. rewrite E. apply H. exact Hs. Qed.

Lemma keeps_emit (e : event) : P e -> keeps P (emit e).
Proof.
  intros He s H. cbn. apply Forall_app. split; [ exact H | ].
  constructor; [ exact He | constructor ].
Qed.

Lemma keeps_call {A : Type} (e : event) (o : outcome A) :
  P e -> keeps P (call e o).
Proof.
  intros He. unfold call. apply keeps_bind.
  - apply keeps_emit. exact He.
  - intros _. apply keeps_lift.
Qed.

Lemma keeps_print_line (line : string) : keeps P (print_line line).
Proof.
  intros s H. unfold print_line. destruct (lineagefile s); exact H.
Qed.

Lemma keeps_print_lines (l : list string) : keeps P (print_lines l).
Proof.
  induction l as [ | line rest IH ]; cbn [print_lines].
  - apply keeps_ret.
  - apply keeps_bind; [ apply keeps_print_line | intros _; exact IH ].
Qed.

Lemma keeps_close : keeps P close_lineage.
Proof.
  intros s H. unfold close_lineage. destruct (lineagefile s); [ | exact H ].
  cbn. apply Forall_app. split; [ exact H | ].
  constructor; [ apply P_other; reflexivity | constructor ].
Qed.

Lemma keeps_reraise {A : Type} (body : M A) :
  keeps P body -> keeps P (reraise_interrupt body).
Proof.
  intros Hb s H. unfold reraise_interrupt. specialize (Hb s H).
  destruct (body s) as [[x | e | ] s']; try exact Hb.
  destruct e; exact Hb.
Qed.

Lemma keeps_try_finally {A : Type} (body : M A) (handler : M unit) :
  keeps P body -> keeps P handler -> keeps P (try_finally body handler).
Proof.
  intros Hb Hh s H. unfold try_finally. specialize (Hb s H).
  destruct (body s) as [[x | e | ] s']; cbn in Hb; try exact Hb;
    specialize (Hh s' Hb); destruct (handler s') as [[u | e' | ] s''];
    exact Hh.
Qed.

(** One step of a proof that a piece of [main] keeps [P]. *)
Ltac keep_step :=
  first
    [ apply keeps_ret
    | apply keeps_raise
    | apply keeps_lift
    | apply keeps_print_line
    | apply keeps_print_lines
    | apply keeps_close
    | apply keeps_call; apply P_other; reflexivity
    | apply keeps_emit; apply P_other; reflexivity
    | apply keeps_bind; [ | intros ? ]
    | match goal with
      | |- keeps _ (if ?b then _ else _) => destruct b
      | |- keeps _ (match ?x with _ => _ end) => destruct x
      end ].

Lemma keeps_load_config (p : Path) : keeps P (load_config w p).
Proof. unfold load_config. repeat keep_step. Qed.

Lemma keeps_float_field (key : string) (row : Row) :
  keeps P (float_field w key row).
Proof. unfold float_field. repeat keep_step. Qed.

Lemma keeps_new_cell (name : option string) (x y width length rotation : float) :
  keeps P (new_cell w name x y width length rotation).
Proof. unfold new_cell. repeat keep_step. Qed.

Lemma keeps_load_rows (colony : Colony w) (cfg : Config) (rows : list Row) :
  forall store, keeps P (load_rows w colony cfg rows store).
Proof.
  induction rows as [ | row rest IH ]; intros store; cbn [load_rows].
  - apply keeps_ret.
  - repeat first [ apply keeps_float_field | apply keeps_new_cell | apply IH
                 | keep_step ].
Qed.

Lemma keeps_load_colony (colony : Colony w) (p : Path) (cfg : Config)
    (store : Store w) :
  keeps P (load_colony w colony p cfg store).
Proof.
  unfold load_colony. apply keeps_bind.
  - apply keeps_call. apply P_other. reflexivity.
  - intros rows. apply keeps_load_rows.
Qed.

Lemma keeps_start_client (a : Args) : keeps P (start_client w a).
Proof. unfold start_client. repeat keep_step. Qed.

Lemma keeps_prepare (a : Args) : keeps P (prepare w a).
Proof.
  unfold prepare, open_lineage.
  repeat first [ apply keeps_load_config | apply keeps_load_colony | keep_step ].
  intros state H. exact H.
Qed.

Lemma keeps_run_global (files : list Path) (store : Store w) (a : Args)
    (cfg : Config) :
  keeps P (run_global w files store a cfg).
Proof. unfold run_global. repeat keep_step. Qed.

Lemma keeps_write_cells (ct : string) (imagefile : Path)
    (cellnodes : list CellNode) :
  keeps P (write_cells w ct imagefile cellnodes).
Proof.
  induction cellnodes as [ | cellnode rest IH ]; cbn [write_cells].
  - apply keeps_ret.
  - apply keeps_bind; [ apply keeps_print_line | intros _; exact IH ].
Qed.

Lemma keeps_frame_loop (a : Args) (cfg : Config) (client : Client)
    (ct : string) (files : list Path) :
  (forall file, P (CallOptimize file a)) ->
  forall store, keeps P (frame_loop w a cfg client ct files store).
Proof.
  intros Ha. induction files as [ | file rest IH ]; intros store;
    cbn [frame_loop].
  - apply keeps_ret.
  - apply keeps_bind.
    + apply keeps_call. apply Ha.
    + intros [colony store']. apply keeps_bind.
      * apply keeps_write_cells.
      * intros _. apply IH.
Qed.

(** In the global mode, and in the greedy mode without calibration when
    [P] holds of the optimizer calls with [a], the log of [main] keeps [P]. *)
Lemma keeps_main (fuel : nat) (a : Args) :
  global_optimization a = true
  \/ (auto_temp a <> 1 /\ forall file, P (CallOptimize file a)) ->
  keeps P (main w fuel a).
Proof.
  intros H. unfold main.
  destruct ((is_not_None (start_temp a) || is_not_None (end_temp a))
            && (auto_temp a =? 1)); [ apply keeps_raise | ].
  apply keeps_bind; [ apply keeps_start_client | intros client ].
  apply keeps_try_finally; [ | apply keeps_close ].
  apply keeps_reraise. unfold main_body.
  apply keeps_bind; [ apply keeps_prepare | intros [[cfg ct] store] ].
  destruct (global_optimization a).
  - repeat first [ apply keeps_run_global | keep_step ].
  - destruct H as [H | [Hauto Ha]]; [ discriminate | ].
    apply (keeps_ext _ (files <- lift (get_inputfiles w fuel a) ;;
                        frame_loop w a cfg client ct files store ;; ret 0)).
    + intros s. unfold bind at 1. rewrite calibrate_manual by exact Hauto.
      reflexivity.
    + apply keeps_bind; [ apply keeps_lift | intros files ].
      apply keeps_bind; [ apply keeps_frame_loop; exact Ha | intros _ ].
      apply keeps_ret.
Qed.

End Log.

(** ** [main] *)

Lemma no_conflict_without_auto (a : Args) :
  auto_temp a <> 1 -> temp_conflict a = false.
Proof.
  intros H. unfold temp_conflict. apply Z.eqb_neq in H. rewrite H.
  apply andb_false_r.
Qed.

(** C2: when auto mode is requested and a manual start or end temperature
    is given, [main] raises at once: the state is as it was, no call has
    been made (no client, no configuration, no colony, no optimization) and
    no file has been opened; so ends the program on such arguments. *)
Theorem auto_temp_excludes_manual_temps (w : World) (fuel : nat) (a : Args) :
  auto_temp a = 1 ->
  start_temp a <> None \/ end_temp a <> None ->
  (forall s, main w fuel a s = (Raised (Exception temp_conflict_msg), s))
  /\ (forall v, parse_args (cpu_count w) v = Returned a ->
        program w fuel v
        = (Raised (Exception temp_conflict_msg), initial_state)).
Proof.
  intros Hauto Hmanual.
  assert (E : forall s, main w fuel a s = (Raised (Exception temp_conflict_msg), s)).
  { intros s. unfold main. rewrite Hauto.
    replace (is_not_None (start_temp a) || is_not_None (end_temp a)) with true.
    - reflexivity.
    - destruct Hmanual as [H | H].
      + destruct (start_temp a); [ reflexivity | exfalso; apply H; reflexivity ].
      + destruct (end_temp a); [ | exfalso; apply H; reflexivity ].
        cbn. rewrite orb_true_r. reflexivity. }
  split; [ exact E | ].
  intros v Hv. unfold program. rewrite Hv. apply E.
Qed.

Lemma auto_temp_excludes_manual_temps_witness :
  let w := Demo.world Demo.five_frames Demo.never in
  program w 10 (Demo.argv None None None None None None false
                          (Some 10.0%float) None)
  = (Raised (Exception temp_conflict_msg), initial_state).
Proof.
  cbv zeta.
  refine (proj2 (auto_temp_excludes_manual_temps
                   (Demo.world Demo.five_frames Demo.never) 10
                   (set_jobs
                      (set_workers
                         (argparse (Demo.argv None None None None None None false
                                              (Some 10.0%float) None)) 4) 4)
                   _ _) _ _).
  - reflexivity.
  - left. discriminate.
  - reflexivity.
Defined.

(** C4 as stated fails: with auto mode off, [--start_temp 1.0] and
    [--end_temp 5.0] (so that [start_temp <= end_temp]), [main] raises no
    error before the frames: the optimizer is called on a frame with these
    temperatures, and where it returns, as it does here, the program ends
    with status 0. *)
Lemma unordered_manual_temps_are_accepted :
  let w := Demo.world Demo.five_frames Demo.never in
  let v := Demo.argv None None (Some 0) None None None false
                     (Some 1.0%float) (Some 5.0%float) in
  PrimFloat.leb 1.0 5.0 = true
  /\ fst (program w 10 v) = Returned 0
  /\ existsb unordered_temps (log (snd (program w 10 v))) = true.
Proof.
  cbv zeta. split; [ reflexivity | split ]; vm_compute; reflexivity.
Qed.

(** C4, amended: with auto mode off [main] makes no check of the manual
    temperatures.  Every optimizer call in its log carries the arguments
    as [main] received them, [start_temp] and [end_temp] included, and no
    calibration is run; and once the setup has succeeded and the frame
    discovery has found a first frame, the optimizer is called on that
    frame with these arguments, whatever the temperatures are. *)
Theorem manual_temps_are_passed_unchecked (w : World) (fuel : nat) (a : Args) :
  auto_temp a <> 1 ->
  Forall (called_with a) (log (snd (main w fuel a initial_state)))
  /\ (forall client s0 cfg ct st s1 file rest,
        start_client w a initial_state = (Returned client, s0) ->
        prepare w a s0 = (Returned (cfg, ct, st), s1) ->
        global_optimization a = false ->
        get_inputfiles w fuel a = Returned (file :: rest) ->
        In (CallOptimize file a) (log (snd (main w fuel a initial_state)))).
Proof.
  intros Hauto. split.
  - apply (keeps_main w (called_with a)).
    + intros e He. destruct e; try exact I; discriminate.
    + right. split; [ exact Hauto | intros file; reflexivity ].
    + constructor.
  - intros client s0 cfg ct st s1 file rest Hclient Hprepare Hg Hfiles.
    destruct (optimizer_chain w a cfg client (file :: rest) st)
      as [done result] eqn:Hchain.
    rewrite (main_greedy_run w fuel a client s0 s1 cfg ct st
               (no_conflict_without_auto a Hauto) Hclient Hprepare
               a st s1 (file :: rest) done result Hg
               (calibrate_manual w fuel a cfg st s1 Hauto) Hfiles Hchain).
    cbn [snd log with_file]. apply in_or_app. right. apply in_or_app. left.
    unfold optimizer_calls, attempts.
    destruct (optimizer_chain_files w a cfg client _ _ _ _ Hchain) as [_ [Q _]].
    destruct done as [ | fr done ].
    + destruct result as [[] | e | ].
      * specialize (Q eq_refl). discriminate.
      * cbn. left. reflexivity.
      * cbn. left. reflexivity.
    + cbn. left. reflexivity.
Qed.

Lemma manual_temps_are_passed_unchecked_witness :
  let w := Demo.world Demo.five_frames Demo.never in
  let a := argparse (Demo.argv (Some 4) None (Some 0) None None None false
                               (Some 1.0%float) (Some 5.0%float)) in
  Forall (called_with a) (log (snd (main w 10 a initial_state)))
  /\ In (CallOptimize "frames/image000.png" a)
        (log (snd (main w 10 a initial_state))).
Proof.
  cbv zeta.
  pose proof (manual_temps_are_passed_unchecked
                (Demo.world Demo.five_frames Demo.never) 10
                (argparse (Demo.argv (Some 4) None (Some 0) None None None false
                                     (Some 1.0%float) (Some 5.0%float)))
                ltac:(cbn; lia)) as [H1 H2].
  split; [ exact H1 | ].
  eapply H2; [ cbv; reflexivity | cbv; reflexivity | reflexivity | reflexivity ].
Defined.











(** C10: in the global mode the log of [main] holds no calibration and no
    per-frame optimization, whatever [auto_temp] is; and when the setup
    has succeeded and the global optimizer returns, [main] returns 0 with
    nothing done after that call but closing the lineage file. *)
Theorem global_mode_skips_the_greedy_loop (w : World) (fuel : nat) (a : Args) :
  global_optimization a = true ->
  Forall (fun e => greedy_event e = false)
         (log (snd (main w fuel a initial_state)))
  /\ (forall client s0 cfg ct st s1 files written,
        temp_conflict a = false ->
        start_client w a initial_state = (Returned client, s0) ->
        prepare w a s0 = (Returned (cfg, ct, st), s1) ->
        get_inputfiles w fuel a = Returned files ->
        global_optimize w files st a cfg = (written, Returned tt) ->
        main w fuel a initial_state
        = (Returned 0,
           with_file (lineage_file written true)
                     (log s1 ++ [CallGlobalOptimize files; CloseFile]))).
Proof.
  intros Hg. split.
  - apply (keeps_main w (fun e => greedy_event e = false)).
    + intros e He. exact He.
    + left. exact Hg.
    + constructor.
  - intros client s0 cfg ct st s1 files written Hno Hclient Hprepare Hfiles Hglobal.
    apply (main_global_run w fuel a client s0 s1 cfg ct st Hno Hclient Hprepare
             files written (Returned tt) Hg Hfiles Hglobal).
    discriminate.
Qed.

Lemma global_mode_skips_the_greedy_loop_witness :
  let w := Demo.world Demo.five_frames Demo.never in
  let a := argparse (Demo.argv (Some 4) None None None (Some 1) None true
                               None None) in
  auto_temp a = 1
  /\ main w 10 a initial_state
     = (Returned 0,
        with_file (lineage_file ["image000.png,joint"; "image001.png,joint"] true)
                  [ReadConfig "config.json"; CheckConfig; ReadColony "cells.csv";
                   OpenFile "out/lineage.csv";
                   CallGlobalOptimize ["frames/image000.png"; "frames/image001.png"];
                   CloseFile]).
Proof.
  cbv zeta. split; [ reflexivity | ].
  etransitivity.
  - eapply (proj2 (global_mode_skips_the_greedy_loop
                     (Demo.world Demo.five_frames Demo.never) 10
                     (argparse (Demo.argv (Some 4) None None None (Some 1) None
                                          true None None))
                     eq_refl));
      [ reflexivity | cbv; reflexivity | cbv; reflexivity | cbv; reflexivity
      | cbv; reflexivity ].
  - reflexivity.
Defined.

(** * Further properties *)

(** ** [load_config] *)

Section Config.

Variable w : World.
Variable p : Path.
Variable s : State.

Lemma load_config_read (j : json) :
  read_json w p = Returned j ->
  load_config w p s
  = match j with
    | JObject config =>
        if negb (contains "global.cellType" config) then
          raise (ValueError (missing_msg "global.cellType"))
        else if negb (contains "global.pixelsPerMicron" config) then
          raise (ValueError (missing_msg "global.pixelsPerMicron"))
        else if negb (contains "global.framesPerSecond" config) then
          raise (ValueError (missing_msg "global.framesPerSecond"))
        else
          celltype <- lift (celltype_of config) ;;
          if String.eqb celltype "bacilli" then
            call CheckConfig (checkconfig w config) ;;
            ret config
          else raise (ValueError unsupported_msg)
    | _ => raise (ValueError not_dict_msg)
    end (after s [ReadConfig p]).
Proof.
  intros H. unfold load_config.
  rewrite (bind_returned _ _ s (after s [ReadConfig p]) j).
  - reflexivity.
  - rewrite call_run, H. reflexivity.
Qed.

Lemma first_missing_none (config : Config) :
  first_missing config = None ->
  contains "global.cellType" config = true
  /\ contains "global.pixelsPerMicron" config = true
  /\ contains "global.framesPerSecond" config = true.
Proof.
  unfold first_missing, required_keys. cbn [find].
  destruct (contains "global.cellType" config); [ | discriminate ].
  destruct (contains "global.pixelsPerMicron" config); [ | discriminate ].
  destruct (contains "global.framesPerSecond" config); [ | discriminate ].
  intros _. repeat split.
Qed.

(** X1: A configuration file that cannot be read, or holds no dictionary, or
    a dictionary without one of the required keys, is refused after the
    file has been read and before anything else is done; of several
    missing keys the first in the order cell type, pixels per micron,
    frames per second is the one reported. *)
Theorem load_config_reports_first_missing_key :
  (forall e, read_json w p = Raised e ->
     load_config w p s = (Raised e, after s [ReadConfig p]))
  /\ (forall j, read_json w p = Returned j -> is_dict j = false ->
       load_config w p s
       = (Raised (ValueError not_dict_msg), after s [ReadConfig p]))
  /\ (forall config key,
       read_json w p = Returned (JObject config) ->
       first_missing config = Some key ->
       load_config w p s
       = (Raised (ValueError (missing_msg key)), after s [ReadConfig p])).
Proof.
  split; [ | split ].
  - intros e H. unfold load_config.
    apply bind_raised. rewrite call_run, H. reflexivity.
  - intros j H Hj. rewrite (load_config_read j H).
    destruct j; try reflexivity. discriminate.
  - intros config key H Hkey. rewrite (load_config_read _ H).
    unfold first_missing, required_keys in Hkey. cbn [find] in Hkey.
    destruct (contains "global.cellType" config);
      [ | inversion Hkey; reflexivity ].
    destruct (contains "global.pixelsPerMicron" config);
      [ | inversion Hkey; reflexivity ].
    destruct (contains "global.framesPerSecond" config);
      [ discriminate | inversion Hkey; reflexivity ].
Qed.

(** X2: A dictionary with the required keys whose cell type is a string other
    than bacilli (in any case of the letters) is refused as unsupported; a
    cell type that is no string at all raises [AttributeError].  In both
    cases the cell model is not consulted. *)
Theorem load_config_rejects_other_cell_types (config : Config) :
  read_json w p = Returned (JObject config) ->
  first_missing config = None ->
  (forall t, lookup "global.cellType" config = Some (JString t) ->
     lower t <> "bacilli" ->
     load_config w p s
     = (Raised (ValueError unsupported_msg), after s [ReadConfig p]))
  /\ (forall j, lookup "global.cellType" config = Some j -> is_str j = false ->
       load_config w p s = (Raised AttributeError, after s [ReadConfig p])).
Proof.
  intros H Hkeys. rewrite (load_config_read _ H).
  destruct (first_missing_none _ Hkeys) as [-> [-> ->]]. cbn [negb].
  split.
  - intros t Ht Hlow. unfold bind, lift, celltype_of. rewrite Ht.
    apply String.eqb_neq in Hlow. rewrite Hlow. reflexivity.
  - intros j Hj Hstr. unfold bind, lift, celltype_of. rewrite Hj.
    destruct j; try reflexivity. discriminate.
Qed.

(** X3: A dictionary with the required keys and the cell type bacilli, in
    any case of the letters, goes to the check of the cell model, and that
    check decides: its exception is the exception of [load_config], and
    when it passes the dictionary is returned as it was loaded. *)
Theorem load_config_accepts_bacilli_in_any_case (config : Config) (t : string) :
  read_json w p = Returned (JObject config) ->
  first_missing config = None ->
  lookup "global.cellType" config = Some (JString t) ->
  lower t = "bacilli" ->
  load_config w p s
  = (match checkconfig w config with
     | Returned _ => Returned config
     | Raised e => Raised e
     | OutOfFuel => OutOfFuel
     end, after s [ReadConfig p; CheckConfig]).
Proof.
  intros H Hkeys Ht Hlow. rewrite (load_config_read _ H).
  destruct (first_missing_none _ Hkeys) as [-> [-> ->]]. cbn [negb].
  unfold bind, call, bind, emit, lift, ret, celltype_of, after.
  rewrite Ht, Hlow. cbn -[checkconfig]. rewrite <- app_assoc.
  destruct (checkconfig w config) as [[] | e | ]; reflexivity.
Qed.

(** X4: A configuration that [load_config] returns is the dictionary of the
    file, has the three required keys and the cell type bacilli, and has
    passed the check of the cell model; reading the file and that check
    are all that was done. *)
Theorem load_config_returns_checked_config (config : Config) (s' : State) :
  load_config w p s = (Returned config, s') ->
  read_json w p = Returned (JObject config)
  /\ first_missing config = None
  /\ celltype_of config = Returned "bacilli"
  /\ checkconfig w config = Returned tt
  /\ s' = after s [ReadConfig p; CheckConfig].
Proof.
  intros H.
  destruct (read_json w p) as [j | e | ] eqn:Hj.
  - rewrite (load_config_read j Hj) in H.
    destruct j as [ | b | n | f | t | l | items ]; try discriminate.
    destruct (contains "global.cellType" items) eqn:E1; [ | discriminate ].
    destruct (contains "global.pixelsPerMicron" items) eqn:E2; [ | discriminate ].
    destruct (contains "global.framesPerSecond" items) eqn:E3; [ | discriminate ].
    cbn [negb] in H.
    unfold bind at 1 in H. unfold lift in H.
    destruct (celltype_of items) as [ct | e | ] eqn:Hct; try discriminate.
    destruct (String.eqb ct "bacilli") eqn:E; [ | discriminate ].
    apply String.eqb_eq in E. subst ct.
    unfold bind, call, bind, emit, lift, ret in H. cbn -[checkconfig] in H.
    destruct (checkconfig w items) as [[] | e | ] eqn:Hcc; try discriminate.
    inversion H; subst.
    unfold after, first_missing, required_keys. cbn [lineagefile log find].
    rewrite E1, E2, E3, <- app_assoc.
    split; [ reflexivity | split; [ reflexivity | split; [ exact Hct | ] ] ].
    split; [ exact Hcc | reflexivity ].
  - unfold load_config in H.
    rewrite (bind_raised _ _ s (after s [ReadConfig p]) e) in H;
      [ discriminate | rewrite call_run, Hj; reflexivity ].
  - unfold load_config in H.
    rewrite (bind_out_of_fuel _ _ s (after s [ReadConfig p])) in H;
      [ discriminate | rewrite call_run, Hj; reflexivity ].
Qed.

End Config.

Lemma load_config_reports_first_missing_key_witness :
  load_config (Samples.configured (JObject Samples.two_missing)) "config.json"
              initial_state
  = (Raised (ValueError (missing_msg "global.cellType")),
     after initial_state [ReadConfig "config.json"])
  /\ load_config (Samples.configured (JArray [])) "config.json" initial_state
     = (Raised (ValueError not_dict_msg),
        after initial_state [ReadConfig "config.json"]).
Proof.
  split.
  - apply (proj2 (proj2 (load_config_reports_first_missing_key
                           (Samples.configured (JObject Samples.two_missing))
                           "config.json" initial_state))
             Samples.two_missing); reflexivity.
  - apply (proj1 (proj2 (load_config_reports_first_missing_key
                           (Samples.configured (JArray []))
                           "config.json" initial_state))
             (JArray [])); reflexivity.
Defined.

Lemma load_config_rejects_other_cell_types_witness :
  load_config (Samples.configured (JObject (Samples.of_type (JString "Cocci"))))
              "config.json" initial_state
  = (Raised (ValueError unsupported_msg),
     after initial_state [ReadConfig "config.json"])
  /\ load_config (Samples.configured (JObject (Samples.of_type (JInt 3))))
                 "config.json" initial_state
     = (Raised AttributeError, after initial_state [ReadConfig "config.json"]).
Proof.
  split.
  - apply (proj1 (load_config_rejects_other_cell_types
                    (Samples.configured
                       (JObject (Samples.of_type (JString "Cocci"))))
                    "config.json" initial_state _ eq_refl eq_refl) "Cocci");
      [ reflexivity | discriminate ].
  - apply (proj2 (load_config_rejects_other_cell_types
                    (Samples.configured (JObject (Samples.of_type (JInt 3))))
                    "config.json" initial_state _ eq_refl eq_refl) (JInt 3));
      reflexivity.
Defined.

Lemma load_config_accepts_bacilli_in_any_case_witness :
  load_config (Samples.configured (JObject (Samples.of_type (JString "BACILLI"))))
              "config.json" initial_state
  = (Returned (Samples.of_type (JString "BACILLI")),
     after initial_state [ReadConfig "config.json"; CheckConfig]).
Proof.
  apply (load_config_accepts_bacilli_in_any_case
           (Samples.configured (JObject (Samples.of_type (JString "BACILLI"))))
           "config.json" initial_state _ "BACILLI");
    reflexivity.
Defined.

Lemma load_config_returns_checked_config_witness :
  first_missing (Samples.of_type (JString "Bacilli")) = None
  /\ checkconfig Samples.base (Samples.of_type (JString "Bacilli")) = Returned tt.
Proof.
  destruct (load_config_returns_checked_config
              (Samples.configured (JObject (Samples.of_type (JString "Bacilli"))))
              "config.json" initial_state
              (Samples.of_type (JString "Bacilli"))
              (after initial_state [ReadConfig "config.json"; CheckConfig])
              eq_refl)
    as [_ [H1 [_ [H2 _]]]].
  split; [ exact H1 | exact H2 ].
Defined.

(** ** [load_colony] *)

Section ColonyFile.

Variable w : World.
Variable colony : Colony w.
Variable cfg : Config.

Hypothesis bacilli : celltype_of cfg = Returned "bacilli".

Lemma float_field_number (key : string) (row : Row) (f : float) (s : State) :
  number w row key = Some f -> float_field w key row s = (Returned f, s).
Proof.
  unfold number, float_field.
  destruct (field key row) as [[text | ] | ]; try discriminate.
  intros ->. reflexivity.
Qed.

(** A row that describes a cell adds that cell and the loop goes on. *)
Lemma load_rows_step (row : Row) (rest : list Row) (c : Bacilli.t)
    (store : Store w) (s : State) :
  cell_of_row w row = Some c ->
  load_rows w colony cfg (row :: rest) store s
  = load_rows w colony cfg rest (add w colony {| cell := c |} store) s.
Proof.
  unfold cell_of_row, columns. cbn [map load_rows].
  destruct (field "name" row) as [[name | ] | ]; try discriminate.
  destruct (number w row "x") as [x | ] eqn:Hx; [ | discriminate ].
  destruct (number w row "y") as [y | ] eqn:Hy; [ | discriminate ].
  destruct (number w row "width") as [wd | ] eqn:Hw; [ | discriminate ].
  destruct (number w row "length") as [l | ] eqn:Hl; [ | discriminate ].
  destruct (number w row "rotation") as [r | ] eqn:Hr; [ | discriminate ].
  intros H. inversion H; subst c; clear H.
  unfold bind at 1. unfold lift. rewrite bacilli.
  replace (String.eqb "bacilli" "bacilli") with true by reflexivity.
  rewrite (bind_returned _ _ _ _ _ (float_field_number _ _ _ _ Hx)).
  rewrite (bind_returned _ _ _ _ _ (float_field_number _ _ _ _ Hy)).
  rewrite (bind_returned _ _ _ _ _ (float_field_number _ _ _ _ Hw)).
  rewrite (bind_returned _ _ _ _ _ (float_field_number _ _ _ _ Hl)).
  rewrite (bind_returned _ _ _ _ _ (float_field_number _ _ _ _ Hr)).
  reflexivity.
Qed.

Lemma load_rows_cells (rows : list Row) (cells : list Bacilli.t) :
  Forall2 (fun row c => cell_of_row w row = Some c) rows cells ->
  forall (more : list Row) (store : Store w) (s : State),
    load_rows w colony cfg (rows ++ more) store s
    = load_rows w colony cfg more (add_cells w colony cells store) s.
Proof.
  induction 1 as [ | row c rows cells Hrow _ IH ]; intros more store s.
  - reflexivity.
  - cbn [app]. rewrite (load_rows_step _ _ _ _ _ Hrow). rewrite IH. reflexivity.
Qed.

(** A row with something wrong ends the loop with that error. *)
Lemma load_rows_error (row : Row) (rest : list Row) (e : exn)
    (store : Store w) (s : State) :
  row_error w row = Some e ->
  load_rows w colony cfg (row :: rest) store s = (Raised e, s).
Proof.
  unfold row_error, columns. cbn [load_rows column_error].
  destruct (field "name" row) as [name | ];
    [ | intros H; inversion H; reflexivity ].
  unfold bind at 1. unfold lift. rewrite bacilli.
  replace (String.eqb "bacilli" "bacilli") with true by reflexivity.
  unfold bind, float_field, raise, ret.
  repeat match goal with
         | |- context [match field ?k row with _ => _ end] =>
             destruct (field k row) as [[? | ] | ];
             [ | intros H; inversion H; reflexivity
               | intros H; inversion H; reflexivity ]
         | |- context [match float_of_string w ?t with _ => _ end] =>
             destruct (float_of_string w t);
             [ | intros H; inversion H; reflexivity ]
         end.
  discriminate.
Qed.

(** X5: Under a configuration whose cell type is bacilli (as [load_config]
    returns it; this is the hypothesis [bacilli] of the section): when
    every row of the file has a text for its name and five numbers that
    [float] reads, [load_colony] adds the cells of these rows to the
    colony, one for each row and in the order of the rows, and does nothing
    else but read the file; a file without rows leaves the colony as it
    is. *)
Theorem load_colony_adds_a_cell_per_row (p : Path) (rows : list Row)
    (cells : list Bacilli.t) (store : Store w) (s : State) :
  read_csv w p = Returned rows ->
  Forall2 (fun row c => cell_of_row w row = Some c) rows cells ->
  load_colony w colony p cfg store s
  = (Returned (add_cells w colony cells store), after s [ReadColony p])
  /\ (rows = [] -> add_cells w colony cells store = store).
Proof.
  intros Hread Hrows. split.
  - unfold load_colony.
    rewrite (bind_returned _ _ s (after s [ReadColony p]) rows)
      by (rewrite call_run, Hread; reflexivity).
    rewrite <- (app_nil_r rows), (load_rows_cells _ _ Hrows). reflexivity.
  - intros ->. inversion Hrows. reflexivity.
Qed.

(** X6: Under a configuration whose cell type is bacilli (the hypothesis
    [bacilli] of the section): after rows that describe cells, a row with
    something wrong in the name key or in a number ends [load_colony] with
    the error of that row, the first in the order name, x, y, width,
    length, rotation: [KeyError] for a key the row does not have (the
    header lacks the column), [TypeError] for a number the row has [None]
    for (the row is shorter than the header), [ValueError] with the
    message of [float] for a text that is no number; the rows after it are
    not looked at. *)
Theorem load_colony_stops_at_first_bad_row (p : Path) (good rest : list Row)
    (bad : Row) (cells : list Bacilli.t) (e : exn) (store : Store w) (s : State) :
  read_csv w p = Returned (good ++ bad :: rest) ->
  Forall2 (fun row c => cell_of_row w row = Some c) good cells ->
  row_error w bad = Some e ->
  load_colony w colony p cfg store s = (Raised e, after s [ReadColony p]).
Proof.
  intros Hread Hgood Hbad. unfold load_colony.
  rewrite (bind_returned _ _ s (after s [ReadColony p]) (good ++ bad :: rest))
    by (rewrite call_run, Hread; reflexivity).
  rewrite (load_rows_cells _ _ Hgood). apply load_rows_error. exact Hbad.
Qed.

End ColonyFile.

Lemma load_colony_adds_a_cell_per_row_witness :
  load_colony Samples.base 0%nat "cells.csv" Samples.config_items [[]]
              initial_state
  = (Returned [[ {| cell := Bacilli.make "a" 10.0 20.0 4.0 10.0 0.0 |};
                 {| cell := Bacilli.make "b" 20.0 10.0 4.0 5.0 1.0 |} ]],
     after initial_state [ReadColony "cells.csv"]).
Proof.
  apply (load_colony_adds_a_cell_per_row Samples.base 0%nat
           Samples.config_items eq_refl "cells.csv" Demo.colony_rows
           [Bacilli.make "a" 10.0 20.0 4.0 10.0 0.0;
            Bacilli.make "b" 20.0 10.0 4.0 5.0 1.0]
           [[]] initial_state eq_refl).
  repeat constructor.
Defined.

Lemma load_colony_stops_at_first_bad_row_witness :
  load_colony (Samples.seeded [Samples.good_row; Samples.bad_row; Samples.good_row])
              0%nat "cells.csv" Samples.config_items [[]] initial_state
  = (Raised (ValueError "could not convert string to float: 'wide'"),
     after initial_state [ReadColony "cells.csv"])
  /\ load_colony (Samples.seeded [Samples.good_row; Samples.short_row])
                 0%nat "cells.csv" Samples.config_items [[]] initial_state
     = (Raised TypeError, after initial_state [ReadColony "cells.csv"])
  /\ load_colony (Samples.seeded [Samples.row_without_y])
                 0%nat "cells.csv" Samples.config_items [[]] initial_state
     = (Raised (KeyError "y"), after initial_state [ReadColony "cells.csv"]).
Proof.
  split; [ | split ].
  - apply (load_colony_stops_at_first_bad_row
             (Samples.seeded [Samples.good_row; Samples.bad_row; Samples.good_row])
             0%nat Samples.config_items eq_refl "cells.csv"
             [Samples.good_row] [Samples.good_row] Samples.bad_row
             [Bacilli.make "a" 10.0 20.0 4.0 10.0 0.0]
             (ValueError "could not convert string to float: 'wide'")
             [[]] initial_state eq_refl);
      [ repeat constructor | reflexivity ].
  - apply (load_colony_stops_at_first_bad_row
             (Samples.seeded [Samples.good_row; Samples.short_row])
             0%nat Samples.config_items eq_refl "cells.csv"
             [Samples.good_row] [] Samples.short_row
             [Bacilli.make "a" 10.0 20.0 4.0 10.0 0.0] TypeError
             [[]] initial_state eq_refl);
      [ repeat constructor | reflexivity ].
  - apply (load_colony_stops_at_first_bad_row
             (Samples.seeded [Samples.row_without_y])
             0%nat Samples.config_items eq_refl "cells.csv"
             [] [] Samples.row_without_y [] (KeyError "y")
             [[]] initial_state eq_refl);
      [ constructor | reflexivity ].
Defined.

(** ** [parse_args], further *)

(** X7: [parse_args] raises in one case only, and then the error that asks
    for [--jobs]: when [jobs] is -1, given so or by default, and a cluster
    address is given.  It never fails to answer. *)
Theorem parse_args_raises_only_for_cluster_without_jobs (n : positive)
    (v : Argv) :
  (parse_args n v = Raised (ValueError jobs_required_msg)
   <-> default (-1) (opt_jobs v) = -1 /\ default "" (opt_cluster v) <> "")
  /\ (forall e, parse_args n v = Raised e -> e = ValueError jobs_required_msg)
  /\ parse_args n v <> OutOfFuel.
Proof.
  unfold parse_args.
  set (p := if workers (argparse v) =? -1
            then set_workers (argparse v) (Z.pos n) else argparse v).
  assert (Hj : jobs p = default (-1) (opt_jobs v))
    by (unfold p; destruct (workers (argparse v) =? -1); reflexivity).
  assert (Hc : cluster p = default "" (opt_cluster v))
    by (unfold p; destruct (workers (argparse v) =? -1); reflexivity).
  rewrite Hj, Hc.
  destruct (default (-1) (opt_jobs v) =? -1) eqn:E.
  - apply Z.eqb_eq in E.
    destruct (default "" (opt_cluster v)) as [ | c rest ]; cbn [truthy].
    + split; [ split | split ]; try discriminate.
      * intros [_ H]. exfalso. apply H. reflexivity.
    + split; [ split | split ]; try discriminate.
      * intros _. split; [ exact E | discriminate ].
      * reflexivity.
      * intros e H. inversion H. reflexivity.
  - apply Z.eqb_neq in E.
    split; [ split | split ]; try discriminate.
    intros [H _]. exfalso. apply E. exact H.
Qed.

(** X8: The arguments [parse_args] returns are those of the command line
    with their defaults, but for [workers], which is the processor count
    when it was -1, and [jobs], which is [workers] when it was -1. *)
Theorem parse_args_changes_only_workers_and_jobs (n : positive) (v : Argv)
    (a : Args) :
  parse_args n v = Returned a ->
  same_but_workers_and_jobs a (argparse v)
  /\ workers a = (if default (-1) (opt_workers v) =? -1 then Z.pos n
                  else default (-1) (opt_workers v))
  /\ jobs a = (if default (-1) (opt_jobs v) =? -1 then workers a
               else default (-1) (opt_jobs v)).
Proof.
  unfold parse_args. change (workers (argparse v)) with (default (-1) (opt_workers v)).
  destruct (default (-1) (opt_workers v) =? -1) eqn:Ew;
    cbn [jobs set_workers cluster];
    change (jobs (argparse v)) with (default (-1) (opt_jobs v));
    destruct (default (-1) (opt_jobs v) =? -1) eqn:Ej;
    try destruct (truthy (cluster (argparse v)));
    intros H; inversion H; subst a; cbn;
    unfold same_but_workers_and_jobs; cbn;
    rewrite ?Ew, ?Ej; repeat split; reflexivity.
Qed.

Lemma parse_args_raises_only_for_cluster_without_jobs_witness :
  parse_args 4 (Demo.argv (Some (-1)) None None None None (Some "scheduler:8786")
                          false None None)
  = Raised (ValueError jobs_required_msg).
Proof.
  apply (proj2 (proj1 (parse_args_raises_only_for_cluster_without_jobs 4 _))).
  split; [ reflexivity | discriminate ].
Defined.

Lemma parse_args_changes_only_workers_and_jobs_witness :
  exists a, parse_args 4 Demo.plain = Returned a
            /\ keep a = 1 /\ frame_last a = -1 /\ auto_temp a = 1
            /\ workers a = 4 /\ jobs a = 4.
Proof.
  eexists. split; [ reflexivity | ].
  destruct (parse_args_changes_only_workers_and_jobs 4 Demo.plain _ eq_refl)
    as [[_ [_ [Hl [_ [Hk [_ [_ [_ [_ [_ [_ [Ha _]]]]]]]]]]]] [Hw Hj]].
  split; [ exact Hk | split; [ exact Hl | split; [ exact Ha | ] ] ].
  split; [ exact Hw | rewrite Hj; exact Hw ].
Defined.

(** ** [get_inputfiles], further *)

Section Discovery.

Variable w : World.
Variable a : Args.

(** What a list the loop returns is made of. *)
Lemma count_loop_returns (fuel : nat) :
  forall (i : Z) (acc files : list Path),
    count_loop w fuel a i acc = Returned files ->
    exists n : nat,
      files = acc ++ map (frame_file w a) (run_from i n)
      /\ (forall k, i <= k < i + Z.of_nat n ->
                    is_file w (frame_file w a k) = true)
      /\ ((0 < n)%nat /\ frame_last a = i + Z.of_nat n - 1
          \/ frame_last a < 0
             /\ is_file w (frame_file w a (i + Z.of_nat n)) = false).
Proof.
  induction fuel as [ | fuel IH ]; intros i acc files H; [ discriminate | ].
  cbn [count_loop] in H. fold (frame_file w a i) in H.
  destruct (is_file w (frame_file w a i)) eqn:Hfile.
  - destruct (i =? frame_last a) eqn:Hlast.
    + apply Z.eqb_eq in Hlast. inversion H; subst files; clear H.
      exists 1%nat. split; [ | split ].
      * cbn. rewrite Z.add_0_r. reflexivity.
      * intros k Hk. replace k with i by lia. exact Hfile.
      * left. split; lia.
    + apply IH in H. destruct H as (n & Hfiles & Hthere & Hend).
      exists (S n). split; [ | split ].
      * rewrite Hfiles, run_from_S, <- app_assoc. reflexivity.
      * intros k Hk. destruct (Z.eq_dec k i) as [-> | Hne];
          [ exact Hfile | apply Hthere; lia ].
      * destruct Hend as [[Hn Hl] | [Hl Hm]].
        -- left. split; lia.
        -- right. split; [ exact Hl | ].
           replace (i + Z.of_nat (S n)) with (i + 1 + Z.of_nat n) by lia.
           exact Hm.
  - destruct ((frame_last a <? 0) && negb (frame_first a =? i)) eqn:Hopen;
      [ | discriminate ].
    apply andb_true_iff in Hopen. destruct Hopen as [Hneg _].
    apply Z.ltb_lt in Hneg. inversion H; subst files; clear H.
    exists 0%nat. split; [ | split ].
    + cbn. rewrite app_nil_r. reflexivity.
    + intros k Hk. lia.
    + right. split; [ exact Hneg | ]. rewrite Z.add_0_r. exact Hfile.
Qed.

(** X9: A list that [get_inputfiles] returns holds at least one file, the
    files of consecutive frames from [frame_first] on (which is not
    negative), every one of them present; with a last frame given the list
    ends at that frame, without one it ends before the first frame that is
    missing. *)
Theorem get_inputfiles_returns_present_frames (fuel : nat) (files : list Path) :
  get_inputfiles w fuel a = Returned files ->
  0 <= frame_first a
  /\ (0 < List.length files)%nat
  /\ files = map (frame_file w a) (run_from (frame_first a) (List.length files))
  /\ Forall (fun file => is_file w file = true) files
  /\ (0 <= frame_last a ->
      frame_last a = frame_first a + Z.of_nat (List.length files) - 1)
  /\ (frame_last a < 0 ->
      is_file w (frame_file w a (frame_first a + Z.of_nat (List.length files)))
      = false).
Proof.
  intros H.
  assert (Hne : files <> []) by exact (get_inputfiles_nonempty w a fuel files H).
  unfold get_inputfiles in H. rewrite interval_guard_false in H.
  destruct (frame_first a <? 0) eqn:Hfirst; [ discriminate | ].
  apply Z.ltb_ge in Hfirst.
  apply count_loop_returns in H. destruct H as (n & Hfiles & Hthere & Hend).
  cbn [app] in Hfiles.
  assert (Hn : List.length files = n).
  { rewrite Hfiles. unfold run_from. rewrite !length_map, length_seq.
    reflexivity. }
  rewrite Hn.
  split; [ exact Hfirst | split; [ | split; [ exact Hfiles | split; [ | split ] ] ] ].
  - destruct files; [ exfalso; apply Hne; reflexivity | cbn in Hn; lia ].
  - rewrite Hfiles. apply Forall_forall. intros file Hin.
    apply in_map_iff in Hin. destruct Hin as (k & <- & Hk).
    unfold run_from in Hk. apply in_map_iff in Hk.
    destruct Hk as (j & <- & Hj). apply in_seq in Hj.
    apply Hthere. lia.
  - intros Hlast. destruct Hend as [[_ Hl] | [Hl _]]; [ exact Hl | lia ].
  - intros Hlast. destruct Hend as [[Hpos Hl] | [_ Hm]]; [ lia | exact Hm ].
Qed.

(** X10: With a last frame given, a frame missing on the way to it is an
    error, the error of its file, also when frames before it are there:
    the list collected so far is not returned. *)
Theorem get_inputfiles_gap_before_last_frame (k : Z) :
  0 <= frame_first a <= k ->
  k <= frame_last a ->
  (forall i, frame_first a <= i < k -> is_file w (frame_file w a i) = true) ->
  is_file w (frame_file w a k) = false ->
  exists fuel0, forall fuel, (fuel0 <= fuel)%nat ->
    get_inputfiles w fuel a = Raised (ValueError (not_found_msg (frame_file w a k))).
Proof.
  intros Hfirst Hlast Hthere Hmissing.
  exists (S (Z.to_nat (k - frame_first a))). intros fuel Hfuel.
  rewrite get_inputfiles_loop by lia.
  set (n := Z.to_nat (k - frame_first a)) in *.
  replace fuel with (n + S (fuel - S n))%nat by lia.
  rewrite count_loop_run.
  - cbn [count_loop].
    replace (frame_first a + Z.of_nat n) with k by lia.
    fold (frame_file w a k). rewrite Hmissing.
    replace (frame_last a <? 0) with false by (symmetry; apply Z.ltb_ge; lia).
    reflexivity.
  - intros j Hj. split; [ apply Hthere; lia | lia ].
Qed.

(** X11: Every negative last frame means what -1 means: no last frame. *)
Theorem get_inputfiles_negative_last_frame (fuel : nat) :
  frame_last a < 0 ->
  get_inputfiles w fuel a = get_inputfiles w fuel (set_frame_last a (-1)).
Proof.
  intros Hlast.
  assert (G : forall n i acc, 0 <= i ->
            count_loop w n a i acc
            = count_loop w n (set_frame_last a (-1)) i acc).
  { induction n as [ | n IH ]; intros i acc Hi; [ reflexivity | ].
    cbn [count_loop frame_first frame_last set_frame_last input].
    replace (i =? frame_last a) with false by (symmetry; apply Z.eqb_neq; lia).
    replace (i =? -1) with false by (symmetry; apply Z.eqb_neq; lia).
    replace (frame_last a <? 0) with true by (symmetry; apply Z.ltb_lt; lia).
    replace (-1 <? 0) with true by reflexivity.
    destruct (is_file w (percent w (input a) i)); [ | reflexivity ].
    apply IH. lia. }
  unfold get_inputfiles. rewrite !interval_guard_false.
  cbn [frame_first set_frame_last].
  destruct (frame_first a <? 0) eqn:Hfirst; [ reflexivity | ].
  apply Z.ltb_ge in Hfirst. apply G. exact Hfirst.
Qed.

(** X12: The loop has no bound of its own: when the file of every frame from
    [frame_first] on is there and the last frame is not among these frames,
    [get_inputfiles] gives no answer, whatever the fuel. *)
Theorem get_inputfiles_runs_on (fuel : nat) :
  0 <= frame_first a ->
  frame_last a < frame_first a ->
  (forall i, frame_first a <= i -> is_file w (frame_file w a i) = true) ->
  get_inputfiles w fuel a = OutOfFuel.
Proof.
  intros Hfirst Hlast Hthere. rewrite get_inputfiles_loop by lia.
  assert (G : forall n i acc, frame_first a <= i ->
            count_loop w n a i acc = OutOfFuel).
  { induction n as [ | n IH ]; intros i acc Hi; [ reflexivity | ].
    cbn [count_loop]. fold (frame_file w a i). rewrite (Hthere i Hi).
    replace (i =? frame_last a) with false by (symmetry; apply Z.eqb_neq; lia).
    apply IH. lia. }
  apply G. lia.
Qed.

End Discovery.

Lemma get_inputfiles_returns_present_frames_witness :
  Forall (fun file => is_file Samples.base file = true) Demo.five_frames
  /\ is_file Samples.base (frame_file Samples.base (argparse Demo.plain) 5) = false.
Proof.
  destruct (get_inputfiles_returns_present_frames Samples.base
              (argparse Demo.plain) 10 Demo.five_frames eq_refl)
    as [_ [_ [_ [H [_ Hend]]]]].
  split; [ exact H | apply Hend; cbn; lia ].
Defined.

Lemma get_inputfiles_gap_before_last_frame_witness :
  exists fuel0, forall fuel, (fuel0 <= fuel)%nat ->
    get_inputfiles Samples.base fuel
      (argparse (Demo.argv None None None (Some 3) (Some 8) None false None None))
    = Raised (ValueError (not_found_msg "frames/image005.png")).
Proof.
  apply (get_inputfiles_gap_before_last_frame Samples.base
           (argparse (Demo.argv None None None (Some 3) (Some 8) None false
                                None None)) 5).
  - cbn. lia.
  - cbn. lia.
  - intros i Hi. cbn in Hi.
    assert (C : i = 3 \/ i = 4) by lia.
    destruct C as [-> | ->]; reflexivity.
  - reflexivity.
Defined.

Lemma get_inputfiles_negative_last_frame_witness :
  get_inputfiles Samples.base 10
    (argparse (Demo.argv None None None None (Some (-7)) None false None None))
  = Returned Demo.five_frames.
Proof.
  rewrite (get_inputfiles_negative_last_frame Samples.base
             (argparse (Demo.argv None None None None (Some (-7)) None false
                                  None None)) 10)
    by (cbn; lia).
  reflexivity.
Defined.

Lemma get_inputfiles_runs_on_witness :
  get_inputfiles Samples.endless 50 (argparse Demo.plain) = OutOfFuel.
Proof.
  apply (get_inputfiles_runs_on Samples.endless (argparse Demo.plain) 50).
  - cbn. lia.
  - cbn. lia.
  - intros i _. reflexivity.
Defined.

(** ** [main], further *)

Lemma silent_ret {A : Type} (x : A) : silent (ret x).
Proof. intros s. reflexivity. Qed.

Lemma silent_raise {A : Type} (e : exn) : silent (@raise A e).
Proof. intros s. reflexivity. Qed.

Lemma silent_lift {A : Type} (o : outcome A) : silent (lift o).
Proof. intros s. reflexivity. Qed.

Lemma silent_bind {A B : Type} (c : M A) (k : A -> M B) :
  silent c -> (forall x, silent (k x)) -> silent (bind c k).
Proof.
  intros Hc Hk s. unfold bind. specialize (Hc s).
  destruct (c s) as [[x | e | ] s']; cbn in Hc; subst s'; try reflexivity.
  apply Hk.
Qed.

Lemma silent_float_field (w : World) (key : string) (row : Row) :
  silent (float_field w key row).
Proof.
  unfold float_field. destruct (field key row) as [[text | ] | ];
    [ destruct (float_of_string w text) | | ];
    first [ apply silent_ret | apply silent_raise ].
Qed.

Lemma silent_new_cell (w : World) (name : option string)
    (x y width length rotation : float) :
  silent (new_cell w name x y width length rotation).
Proof.
  unfold new_cell. destruct name; [ apply silent_ret | apply silent_lift ].
Qed.

(** Building the cells of the rows changes the colony only. *)
Lemma silent_load_rows (w : World) (colony : Colony w) (cfg : Config)
    (rows : list Row) :
  forall store, silent (load_rows w colony cfg rows store).
Proof.
  induction rows as [ | row rest IH ]; intros store; cbn [load_rows].
  - apply silent_ret.
  - destruct (field "name" row); [ | apply silent_raise ].
    apply silent_bind; [ apply silent_lift | intros ct ].
    destruct (String.eqb ct "bacilli"); [ | apply silent_raise ].
    repeat (apply silent_bind; [ apply silent_float_field | intros ? ]).
    apply silent_bind; [ apply silent_new_cell | intros ? ].
    apply IH.
Qed.

(** However it ends, [load_config] has read the file, perhaps asked the
    cell model, and left the lineage file alone. *)
Lemma load_config_state (w : World) (p : Path) (s : State) :
  snd (load_config w p s) = after s [ReadConfig p]
  \/ snd (load_config w p s) = after s [ReadConfig p; CheckConfig]
     /\ exists cfg, read_json w p = Returned (JObject cfg)
                    /\ fst (load_config w p s)
                       = match checkconfig w cfg with
                         | Returned _ => Returned cfg
                         | Raised e => Raised e
                         | OutOfFuel => OutOfFuel
                         end.
Proof.
  unfold load_config, bind, call, bind, emit, lift, raise, ret, after.
  destruct (read_json w p) as [j | e | ]; try (left; reflexivity).
  destruct j as [ | b | n | f | t | l | cfg ]; try (left; reflexivity).
  cbn [fst snd].
  destruct (contains "global.cellType" cfg); [ | left; reflexivity ].
  destruct (contains "global.pixelsPerMicron" cfg); [ | left; reflexivity ].
  destruct (contains "global.framesPerSecond" cfg); [ | left; reflexivity ].
  cbn [negb].
  destruct (celltype_of cfg) as [ct | e | ]; try (left; reflexivity).
  destruct (String.eqb ct "bacilli"); [ | left; reflexivity ].
  right. cbn [lineagefile log].
  destruct (checkconfig w cfg) as [[] | e | ] eqn:Hcc;
    cbn [fst snd]; rewrite <- app_assoc;
    (split; [ reflexivity | exists cfg; rewrite Hcc; split; reflexivity ]).
Qed.

Lemma load_colony_state (w : World) (colony : Colony w) (p : Path)
    (cfg : Config) (store : Store w) (s : State) :
  snd (load_colony w colony p cfg store s) = after s [ReadColony p].
Proof.
  unfold load_colony, bind. rewrite call_run.
  destruct (read_csv w p) as [rows | e | ]; try reflexivity.
  apply silent_load_rows.
Qed.

Section Setup.

Variable w : World.
Variable a : Args.
Variable s : State.

(** What [prepare] has done when it ends, well or not: the lineage file
    is touched by the last step alone. *)
Lemma prepare_state :
  match prepare w a s with
  | (Returned _, s1) =>
      s1 = with_file (lineage_file [] false)
             (log s ++ [ReadConfig (config a); CheckConfig;
                        ReadColony (initial a);
                        OpenFile (path_join (output a) "lineage.csv")])
  | (_, s1) => lineagefile s1 = lineagefile s
  end.
Proof.
  unfold prepare. unfold bind at 1.
  pose proof (load_config_state w (config a) s) as Hc.
  destruct (load_config w (config a) s) as [[cfg | e | ] s2] eqn:E;
    cbn [fst snd] in Hc;
    try (destruct Hc as [-> | [-> _]]; reflexivity).
  pose proof (load_config_celltype w _ _ _ _ E) as Hct.
  destruct Hc as [-> | [-> _]].
  - exfalso. revert E. unfold load_config. unfold bind at 1. rewrite call_run.
    destruct (read_json w (config a)) as [j | e | ]; try discriminate.
    destruct j as [ | b | n | f | t | l | items ]; try discriminate.
    destruct (contains "global.cellType" items); [ | discriminate ].
    destruct (contains "global.pixelsPerMicron" items); [ | discriminate ].
    destruct (contains "global.framesPerSecond" items); [ | discriminate ].
    cbn [negb]. unfold bind at 1. unfold lift.
    destruct (celltype_of items) as [ct | e | ]; try discriminate.
    destruct (String.eqb ct "bacilli"); [ | discriminate ].
    unfold bind. rewrite call_run.
    destruct (checkconfig w items) as [[] | e | ]; try discriminate.
    unfold ret, after. cbn [lineagefile log]. intros H. inversion H as [[H1 H2]].
    apply (f_equal (@List.length event)) in H2.
    rewrite !length_app in H2. cbn in H2. lia.
  - unfold bind at 1. unfold lift at 1. rewrite Hct.
    destruct (forward w (LineageFrames w)) as [colony st0].
    unfold bind at 1.
    pose proof (load_colony_state w colony (initial a) cfg st0
                  (after s [ReadConfig (config a); CheckConfig])) as Hl.
    destruct (load_colony w colony (initial a) cfg st0
                (after s [ReadConfig (config a); CheckConfig]))
      as [[st1 | e | ] s3]; cbn [snd] in Hl; subst s3; try reflexivity.
    unfold open_lineage, bind. rewrite call_run.
    destruct (open_w w (path_join (output a) "lineage.csv")) as [[] | e | ];
      try reflexivity.
    cbn. unfold with_file, lineage_file. rewrite <- !app_assoc. reflexivity.
Qed.

End Setup.

(** Frame discovery reads the first frame, the last frame and the
    pattern, and nothing else, of its arguments. *)
Lemma get_inputfiles_same (w : World) (fuel : nat) (a b : Args) :
  frame_first a = frame_first b ->
  frame_last a = frame_last b ->
  input a = input b ->
  get_inputfiles w fuel a = get_inputfiles w fuel b.
Proof.
  intros Hf Hl Hi. unfold get_inputfiles, interval_guard. rewrite Hf, Hl.
  destruct ((frame_first b <? frame_first b) && (frame_last b >=? 0));
    [ reflexivity | ].
  destruct (frame_first b <? 0); [ reflexivity | ].
  generalize (@nil Path). generalize (frame_first b) at 1 2.
  induction fuel as [ | fuel IH ]; intros i acc; [ reflexivity | ].
  cbn [count_loop]. rewrite Hf, Hl, Hi.
  destruct (is_file w (percent w (input b) i)); [ | reflexivity ].
  destruct (i =? frame_last b); [ reflexivity | apply IH ].
Qed.

Section Endings.

Variable w : World.
Variable fuel : nat.
Variable a : Args.

(** X13: When [main] returns, it returns 0: there is no other exit status
    than 0 and the exceptions. *)
Theorem main_returns_only_zero (s s' : State) (z : Z) :
  main w fuel a s = (Returned z, s') -> z = 0.
Proof.
  unfold main.
  destruct ((is_not_None (start_temp a) || is_not_None (end_temp a))
            && (auto_temp a =? 1)); [ discriminate | ].
  intros H. apply bind_inversion in H. destruct H as (client & s0 & _ & H).
  unfold try_finally, reraise_interrupt in H.
  destruct (main_body w fuel a client s0) as [[z' | e | ] s1] eqn:Hb.
  - assert (z' = z).
    { unfold close_lineage in H. destruct (lineagefile s1);
        inversion H; reflexivity. }
    subst z'. clear H. unfold main_body in Hb.
    apply bind_inversion in Hb. destruct Hb as ([[cfg ct] st] & s2 & _ & Hb).
    destruct (global_optimization a).
    + apply bind_inversion in Hb. destruct Hb as (files & s3 & _ & Hb).
      apply bind_inversion in Hb. destruct Hb as (u & s4 & _ & Hb).
      inversion Hb. reflexivity.
    + apply bind_inversion in Hb. destruct Hb as ([a' st'] & s3 & _ & Hb).
      apply bind_inversion in Hb. destruct Hb as (files & s4 & _ & Hb).
      apply bind_inversion in Hb. destruct Hb as (u & s5 & _ & Hb).
      inversion Hb. reflexivity.
  - unfold close_lineage in H.
    destruct e; destruct (lineagefile s1); discriminate.
  - discriminate.
Qed.

(** X14: When the client cannot be started, [main] ends with that exception
    before the configuration is read: nothing but calls to dask has
    happened and there is no lineage file. *)
Theorem client_failure_ends_main (e : exn) (s0 : State) :
  temp_conflict a = false ->
  start_client w a initial_state = (Raised e, s0) ->
  main w fuel a initial_state = (Raised e, s0)
  /\ lineagefile s0 = None
  /\ Forall (fun ev => dask_event ev = true) (log s0).
Proof.
  intros Hno Hclient. split; [ | split ].
  - unfold main. fold (temp_conflict a). rewrite Hno.
    apply bind_raised. exact Hclient.
  - pose proof (start_client_file w a initial_state) as H.
    rewrite Hclient in H. exact H.
  - revert Hclient.
    unfold start_client, bind, call, bind, emit, lift, ret.
    destruct (no_parallel a); [ discriminate | ].
    destruct (truthy (cluster a)); cbn.
    + destruct (connect w _); intros H; inversion H; subst;
        repeat constructor.
    + destruct (local_cluster w _); cbn;
        [ destruct (connect w _) | | ]; intros H; inversion H; subst;
        repeat constructor.
Qed.

Section Started.

Variable client : Client.
Variable s0 : State.

Hypothesis no_conflict : temp_conflict a = false.
Hypothesis client_started : start_client w a initial_state = (Returned client, s0).

(** X15: When the setup fails (the configuration or the initial colony is
    refused, or the lineage file cannot be opened), [main] ends with that
    exception and without a lineage file: there is nothing to close. *)
Theorem setup_failure_leaves_no_lineage_file (e : exn) (s1 : State) :
  prepare w a s0 = (Raised e, s1) ->
  main w fuel a initial_state = (Raised e, s1) /\ lineagefile s1 = None.
Proof.
  intros Hprepare.
  assert (Hfile : lineagefile s1 = None).
  { pose proof (prepare_state w a s0) as H. rewrite Hprepare in H.
    rewrite H. pose proof (start_client_file w a initial_state) as Hc.
    rewrite client_started in Hc. exact Hc. }
  split; [ | exact Hfile ].
  unfold main. fold (temp_conflict a). rewrite no_conflict.
  rewrite (bind_returned _ _ _ _ _ client_started).
  unfold try_finally, reraise_interrupt, main_body.
  rewrite (bind_raised _ _ _ _ _ Hprepare).
  destruct e; cbv beta iota; unfold close_lineage; rewrite Hfile; reflexivity.
Qed.

(** X16: The setup, when it succeeds, has read and checked the configuration,
    then read the initial colony, then opened [lineage.csv] in the output
    directory, in this order and nothing else, and the file holds the
    header. *)
Theorem setup_reads_before_it_opens (x : Config * string * Store w) (s1 : State) :
  prepare w a s0 = (Returned x, s1) ->
  log s1 = log s0 ++ [ReadConfig (config a); CheckConfig; ReadColony (initial a);
                      OpenFile (path_join (output a) "lineage.csv")]
  /\ lineagefile s1
     = Some {| lines := ["file,name,x,y,width,length,rotation"]; closed := false |}.
Proof.
  intros Hprepare. pose proof (prepare_state w a s0) as H.
  rewrite Hprepare in H. rewrite H. split; reflexivity.
Qed.

Variable cfg : Config.
Variable ct : string.
Variable st : Store w.
Variable s1 : State.

Hypothesis prepared : prepare w a s0 = (Returned (cfg, ct, st), s1).

(** X17: When the frame discovery raises, in the global mode as in the greedy
    mode, with or without calibration, [main] ends with that exception and
    leaves the lineage file closed with the header as its only line. *)
Theorem discovery_failure_leaves_header_only (e : exn) :
  get_inputfiles w fuel a = Raised e ->
  main w fuel a initial_state
  = (Raised e, with_file (lineage_file [] true) (log s1 ++ [CloseFile])).
Proof.
  intros Hfiles.
  destruct (global_optimization a) eqn:Hg.
  - destruct (prepare_run _ _ _ _ _ _ _ prepared) as [_ Hs1].
    unfold main. fold (temp_conflict a). rewrite no_conflict.
    rewrite (bind_returned _ _ _ _ _ client_started).
    unfold try_finally, reraise_interrupt, main_body.
    rewrite (bind_returned _ _ _ _ _ prepared). rewrite Hg.
    unfold bind at 1. unfold lift at 1. rewrite Hfiles. rewrite Hs1.
    destruct e; reflexivity.
  - destruct (Z.eq_dec (auto_temp a) 1) as [Hauto | Hauto].
    + apply (main_calibration_raises w fuel a client s0 s1 cfg ct st
               no_conflict client_started prepared e s1 Hg).
      unfold calibrate. rewrite Hauto. cbn [Z.eqb Pos.eqb].
      unfold bind, lift. rewrite Hfiles. reflexivity.
    + destruct (prepare_run _ _ _ _ _ _ _ prepared) as [_ Hs1].
      unfold main. fold (temp_conflict a). rewrite no_conflict.
      rewrite (bind_returned _ _ _ _ _ client_started).
      unfold try_finally, reraise_interrupt, main_body.
      rewrite (bind_returned _ _ _ _ _ prepared). rewrite Hg.
      rewrite (bind_returned _ _ _ _ _ (calibrate_manual w fuel a cfg st s1 Hauto)).
      unfold bind at 1. unfold lift at 1. rewrite Hfiles. rewrite Hs1.
      destruct e; reflexivity.
Qed.

(** X18: In the greedy mode with auto temperature, the calibration is run on
    the first input file, and the optimizer is then called on that file,
    and on every file it is called on, with the two calibrated temperatures
    in place of [start_temp] and [end_temp] and the other arguments as
    they were. *)
Theorem auto_mode_hands_on_calibrated_temperatures (file : Path)
    (rest : list Path) (colony : Colony w) (st0 st1 : Store w) (t e : float) :
  global_optimization a = false ->
  auto_temp a = 1 ->
  get_inputfiles w fuel a = Returned (file :: rest) ->
  forward w st = (colony, st0) ->
  auto_temp_schedule w file colony st0 a cfg = Returned (t, e, st1) ->
  In (CallAutoTemp file) (log (snd (main w fuel a initial_state)))
  /\ In (CallOptimize file (set_temps a t e))
        (log (snd (main w fuel a initial_state)))
  /\ Forall (optimizes_with (set_temps a t e))
            (log (snd (main w fuel a initial_state))).
Proof.
  intros Hg Hauto Hfiles Hforward Hschedule.
  assert (Hcal : calibrate w fuel a cfg st s1
                 = (Returned (set_temps a t e, st1), after s1 [CallAutoTemp file])).
  { unfold calibrate. rewrite Hauto. cbn [Z.eqb Pos.eqb].
    unfold bind at 1. unfold lift at 1. rewrite Hfiles.
    unfold bind at 1. unfold lift at 1. cbn [first_item].
    rewrite Hforward. unfold bind. rewrite call_run, Hschedule. reflexivity. }
  assert (Hfiles' : get_inputfiles w fuel (set_temps a t e)
                    = Returned (file :: rest)).
  { rewrite <- Hfiles. apply get_inputfiles_same; reflexivity. }
  destruct (optimizer_chain w (set_temps a t e) cfg client (file :: rest) st1)
    as [done result] eqn:Hchain.
  rewrite (main_greedy_run w fuel a client s0 s1 cfg ct st no_conflict
             client_started prepared _ _ _ _ done result Hg Hcal Hfiles' Hchain).
  cbn [snd log with_file after].
  assert (Hin : In (CallOptimize file (set_temps a t e))
                   (optimizer_calls (set_temps a t e) (file :: rest) done result)).
  { unfold optimizer_calls, attempts.
    destruct (optimizer_chain_files w _ cfg client _ _ _ _ Hchain) as [_ [Q _]].
    destruct done as [ | fr done ]; [ | left; reflexivity ].
    destruct result as [[] | x | ]; [ | left; reflexivity | left; reflexivity ].
    specialize (Q eq_refl). discriminate. }
  assert (Hother : forall ev, greedy_event ev = false ->
                              optimizes_with (set_temps a t e) ev)
    by (intros ev Hev; destruct ev; try exact I; discriminate).
  split; [ | split ].
  - apply in_or_app. left. apply in_or_app. right. left. reflexivity.
  - apply in_or_app. right. apply in_or_app. left. exact Hin.
  - apply Forall_app. split; [ apply Forall_app; split | apply Forall_app; split ].
    + pose proof (keeps_prepare w _ Hother a s0) as Hp.
      rewrite prepared in Hp. apply Hp.
      pose proof (keeps_start_client w _ Hother a initial_state) as Hc.
      rewrite client_started in Hc. apply Hc. constructor.
    + repeat constructor.
    + unfold optimizer_calls. apply Forall_forall. intros ev Hev.
      apply in_map_iff in Hev. destruct Hev as (f & <- & _). reflexivity.
    + destruct (exits result); repeat constructor.
Qed.

End Started.

End Endings.

Lemma main_returns_only_zero_witness :
  exists z s',
    main Samples.base 10 Samples.four_jobs initial_state = (Returned z, s')
    /\ z = 0.
Proof.
  eexists. eexists. split; [ cbv; reflexivity | ].
  eapply (main_returns_only_zero Samples.base 10 Samples.four_jobs
                                 initial_state).
  cbv. reflexivity.
Defined.

Lemma client_failure_ends_main_witness :
  main Samples.offline 10 (Samples.in_parallel Samples.four_jobs) initial_state
  = (Raised (OtherError "OSError"),
     after initial_state [NewLocalCluster 4;
                          NewClient (LocalCluster 4 worker_space)]).
Proof.
  apply (proj1 (client_failure_ends_main Samples.offline 10
                  (Samples.in_parallel Samples.four_jobs)
                  (OtherError "OSError") _ eq_refl eq_refl)).
Defined.

Lemma setup_failure_leaves_no_lineage_file_witness :
  main (Samples.configured (JArray [])) 10 Samples.four_jobs initial_state
  = (Raised (ValueError not_dict_msg),
     after initial_state [ReadConfig "config.json"]).
Proof.
  apply (proj1 (setup_failure_leaves_no_lineage_file
                  (Samples.configured (JArray [])) 10 Samples.four_jobs
                  None initial_state eq_refl eq_refl
                  (ValueError not_dict_msg) _ eq_refl)).
Defined.

Lemma setup_reads_before_it_opens_witness :
  log (snd (prepare Samples.base Samples.four_jobs initial_state))
  = [ReadConfig "config.json"; CheckConfig; ReadColony "cells.csv";
     OpenFile "out/lineage.csv"].
Proof.
  destruct (prepare Samples.base Samples.four_jobs initial_state)
    as [[x | e | ] s1] eqn:E; try (cbv in E; discriminate).
  exact (proj1 (setup_reads_before_it_opens Samples.base Samples.four_jobs
                  initial_state x s1 E)).
Defined.

Lemma discovery_failure_leaves_header_only_witness :
  main Samples.frameless 10 Samples.four_jobs initial_state
  = (Raised (ValueError (not_found_msg "frames/image000.png")),
     with_file (lineage_file [] true)
               [ReadConfig "config.json"; CheckConfig; ReadColony "cells.csv";
                OpenFile "out/lineage.csv"; CloseFile])
  /\ main Samples.frameless 10 Samples.four_jobs_global initial_state
     = (Raised (ValueError (not_found_msg "frames/image000.png")),
        with_file (lineage_file [] true)
                  [ReadConfig "config.json"; CheckConfig; ReadColony "cells.csv";
                   OpenFile "out/lineage.csv"; CloseFile]).
Proof.
  split.
  - etransitivity.
    + eapply (discovery_failure_leaves_header_only Samples.frameless 10
                Samples.four_jobs);
        [ reflexivity | cbv; reflexivity | cbv; reflexivity | cbv; reflexivity ].
    + reflexivity.
  - etransitivity.
    + eapply (discovery_failure_leaves_header_only Samples.frameless 10
                Samples.four_jobs_global);
        [ reflexivity | cbv; reflexivity | cbv; reflexivity | cbv; reflexivity ].
    + reflexivity.
Defined.

Lemma auto_mode_hands_on_calibrated_temperatures_witness :
  In (CallAutoTemp "frames/image000.png")
     (log (snd (main Samples.base 10 Samples.four_jobs initial_state)))
  /\ In (CallOptimize "frames/image000.png"
           (set_temps Samples.four_jobs 10.0 1.0))
        (log (snd (main Samples.base 10 Samples.four_jobs initial_state))).
Proof.
  edestruct (auto_mode_hands_on_calibrated_temperatures Samples.base 10
               Samples.four_jobs)
    as [H1 [H2 _]];
    [ reflexivity | cbv; reflexivity | cbv; reflexivity | reflexivity
    | reflexivity | cbv; reflexivity | cbv; reflexivity | cbv; reflexivity | ].
  split; [ exact H1 | exact H2 ].
Defined.
